(** * AI News Daily dashboard (src/app/page.tsx): a shallow embedding

    The page is a React client component.  Its logic that is worth stating
    precisely is small: the bounded digest history kept in [localStorage],
    the settings record of the settings modal, the validation of the agent
    gateway's answer in [fetchNews], and the relative-time formatter
    [formatNextRun].  Rendering (JSX) is left out.

    Conventions of the embedding:
    - run-time data whose TypeScript type is only asserted ([JSON.parse]
      results, the agent's answer) is a [JS.value];
    - component state is a record, one field per [useState] cell, and a
      function of the component is a computation in the monad [JS.M] over
      that record paired with [localStorage]; an exception leaves the state
      updates made before it in place, as [setState] calls do;
    - the browser's built-ins that the page calls but does not define
      ([JSON], [Date], the locale formatters) are the methods of the class
      [JS.Platform]; the clock is read by the caller and passed in. *)

From Stdlib Require Import ZArith Ascii String List Bool Lia.
From stdpp Require Import base tactics option list gmap strings pretty.

Local Open Scope string_scope.

(** ** The fragment of JavaScript the page relies on *)
Module JS.

(** Numbers.  The numbers on the modelled paths are integer valued (epoch
    milliseconds, differences of them, counters) or [NaN], the time value of
    an invalid [Date]; an integer stands for the double of the same value. *)
Inductive number : Type :=
| NaN
| Int (z : Z).

Unset Elimination Schemes.
Inductive value : Type :=
| VUndefined
| VNull
| VBool (b : bool)
| VNum (n : number)
| VStr (s : string)
| VArr (items : list value)
| VObj (fields : list (string * value)).
Set Elimination Schemes.

(** What a [throw] carries: the engine's own errors and whatever a rejected
    promise carries ([error instanceof Error] holds for the first three). *)
Inductive thrown : Type :=
| TypeError (base : value) (key : string)   (* property [key] read from null or undefined *)
| SyntaxError (text : string)               (* JSON.parse on text that is not JSON *)
| ErrorObject (message : string)            (* any other instance of Error *)
| NonError (v : value).                     (* a thrown value that is not an Error *)

Inductive completion (A : Type) : Type :=
| Normal (a : A)
| Abrupt (e : thrown).
Arguments Normal {A} a.
Arguments Abrupt {A} e.

#[global] Instance completion_ret : MRet completion := fun A a => Normal a.
#[global] Instance completion_bind : MBind completion := fun A B f c =>
  match c with
  | Normal a => f a
  | Abrupt e => Abrupt e
  end.

(** Arithmetic and comparison on numbers: [NaN] is contagious and every
    comparison with it is false. *)
Definition sub (a b : number) : number :=
  match a, b with
  | Int x, Int y => Int (x - y)
  | _, _ => NaN
  end.

Definition lt (a b : number) : bool :=
  match a, b with
  | Int x, Int y => (x <? y)%Z
  | _, _ => false
  end.

(** [a % b] : the remainder has the sign of the dividend. *)
Definition rem (a b : number) : number :=
  match a, b with
  | Int x, Int y => if (y =? 0)%Z then NaN else Int (Z.rem x y)
  | _, _ => NaN
  end.

(** [Math.floor(a / b)]: the quotient is not an integer in general, so the
    division and the rounding down are one operation here. *)
Definition floor_div (a b : number) : number :=
  match a, b with
  | Int x, Int y => if (y =? 0)%Z then NaN else Int (x / y)
  | _, _ => NaN
  end.

(** [a !== b] on numbers. *)
Definition strict_ne (a b : number) : bool :=
  match a, b with
  | Int x, Int y => negb (x =? y)%Z
  | _, _ => true
  end.

(** [Number.prototype.toString]: decimal digits for an integer (below 1e21,
    which every time value is). *)
Definition Number_toString (n : number) : string :=
  match n with
  | NaN => "NaN"
  | Int z => pretty z
  end.

(** [ToBoolean]. *)
Definition truthy (v : value) : bool :=
  match v with
  | VUndefined | VNull => false
  | VBool b => b
  | VNum NaN => false
  | VNum (Int z) => negb (z =? 0)%Z
  | VStr s => negb (String.eqb s "")
  | VArr _ | VObj _ => true
  end.

(** [a || b], on values already evaluated: the operands of the page's uses
    have no effects. *)
Definition or_else (a b : value) : value := if truthy a then a else b.

Definition nullish (v : value) : bool :=
  match v with
  | VUndefined | VNull => true
  | _ => false
  end.

Definition isArray (v : value) : bool :=
  match v with
  | VArr _ => true
  | _ => false
  end.

Fixpoint assoc (key : string) (fields : list (string * value)) : value :=
  match fields with
  | [] => VUndefined
  | (k, v) :: rest => if String.eqb key k then v else assoc key rest
  end.

(** [base.key] for the property names the page reads (none of them is a
    built-in property of arrays, strings, numbers or booleans): own
    properties of an object, [undefined] on every other value. *)
Definition field (base : value) (key : string) : value :=
  match base with
  | VObj fields => assoc key fields
  | _ => VUndefined
  end.

(** [base.key] as evaluated: a [TypeError] on null and undefined. *)
Definition get (base : value) (key : string) : completion value :=
  if nullish base then Abrupt (TypeError base key) else Normal (field base key).

(** [base?.key]. *)
Definition get_opt (base : value) (key : string) : completion value :=
  if nullish base then Normal VUndefined else get base key.

Definition join (sep : string) (parts : list string) : string :=
  match parts with
  | [] => ""
  | p :: ps => p +:+ fold_right (fun q acc => sep +:+ q +:+ acc) "" ps
  end.

(** The built-ins of the browser that the page calls. *)
Class Platform : Type := {
  (** [JSON.stringify], as the page applies it (to an object or an array) *)
  JSON_stringify : value -> string;
  (** [JSON.parse]; [None] when it throws a [SyntaxError] *)
  JSON_parse : string -> option value;
  (** the time value of [new Date(text)]; [None] is [NaN] (an invalid date) *)
  Date_parse : string -> option Z;
  (** [toLocaleString('en-US', {month:'short', day:'numeric', hour:'numeric',
      minute:'2-digit', hour12:true})] of a valid date, by time value *)
  toLocaleString_en_US : Z -> string;
  (** [toLocaleDateString()] of a valid date, by time value *)
  toLocaleDateString : Z -> string;
  (** the message of the [TypeError] of a property read on null or undefined *)
  TypeError_message : value -> string -> string;
  (** the message of the [SyntaxError] of [JSON.parse] *)
  SyntaxError_message : string -> string;
  (** the message of the [TypeError] of converting to a text an object that
      has no callable [toString] and no [valueOf] giving a primitive *)
  ToPrimitive_message : string;
  (** [Number.prototype.toString] of an integer-valued double of magnitude
      above 2^53: the fewest digits that identify the double, followed by
      zeros below 1e21 and in exponent notation from 1e21 on *)
  Number_toString_large : Z -> string
}.

(** Whether [key] is an own property. *)
Definition has_own (key : string) (fields : list (string * value)) : bool :=
  existsb (fun kv => String.eqb key (fst kv)) fields.

(** [ToString] of a number, in its whole range: the decimal digits of a
    safe integer, the engine's digits beyond. *)
Definition Number_text `{Platform} (n : number) : string :=
  match n with
  | NaN => Number_toString NaN
  | Int z =>
      if (Z.abs z <=? 2 ^ 53)%Z then Number_toString (Int z) else Number_toString_large z
  end.

(** [ToString], as string concatenation applies it to its operand.  An
    object is converted by its [toString]: the inherited one gives
    "[object Object]", and an own property of that name, which is no function
    in data, leaves none to call and the conversion throws a [TypeError].  An
    array is joined with commas, null and undefined elements as empty
    texts. *)
Fixpoint ToString `{Platform} (v : value) : completion string :=
  match v with
  | VUndefined => Normal "undefined"
  | VNull => Normal "null"
  | VBool b => Normal (if b then "true" else "false")
  | VNum n => Normal (Number_text n)
  | VStr s => Normal s
  | VArr items =>
      match
        (fix elements (l : list value) : completion (list string) :=
           match l with
           | [] => Normal []
           | x :: rest =>
               match (if nullish x then Normal "" else ToString x) with
               | Normal text =>
                   match elements rest with
                   | Normal texts => Normal (text :: texts)
                   | Abrupt e => Abrupt e
                   end
               | Abrupt e => Abrupt e
               end
           end) items
      with
      | Normal texts => Normal (join "," texts)
      | Abrupt e => Abrupt e
      end
  | VObj fields =>
      if has_own "toString" fields then Abrupt (ErrorObject ToPrimitive_message)
      else Normal "[object Object]"
  end.

(** [JSON.parse(text)] as evaluated. *)
Definition parse `{Platform} (text : string) : completion value :=
  match JSON_parse text with
  | Some v => Normal v
  | None => Abrupt (SyntaxError text)
  end.

(** [error instanceof Error ? error.message : fallback]. *)
Definition message_or `{Platform} (e : thrown) (fallback : string) : string :=
  match e with
  | TypeError base key => TypeError_message base key
  | SyntaxError text => SyntaxError_message text
  | ErrorObject m => m
  | NonError _ => fallback
  end.

(** Computations over a mutable state [S] that may throw: the state reached
    when the exception is raised is kept. *)
Definition M (S A : Type) : Type := S -> completion A * S.

#[global] Instance M_ret {S} : MRet (M S) := fun A a s => (Normal a, s).
#[global] Instance M_bind {S} : MBind (M S) := fun A B f m s =>
  match m s with
  | (Normal a, s') => f a s'
  | (Abrupt e, s') => (Abrupt e, s')
  end.

Definition lift {S A} (c : completion A) : M S A := fun s => (c, s).
Definition gets {S A} (f : S -> A) : M S A := fun s => (Normal (f s), s).
Definition modify {S} (f : S -> S) : M S unit := fun s => (Normal tt, f s).

(** [try { body } catch (e) { handler e }]. *)
Definition try_catch {S A} (body : M S A) (handler : thrown -> M S A) : M S A :=
  fun s =>
    match body s with
    | (Normal a, s') => (Normal a, s')
    | (Abrupt e, s') => handler e s'
    end.

(** [try { body } finally { final }]. *)
Definition try_finally {S A} (body : M S A) (final : M S unit) : M S A :=
  fun s =>
    match body s with
    | (r, s') =>
        match final s' with
        | (Normal _, s'') => (r, s'')
        | (Abrupt e, s'') => (Abrupt e, s'')
        end
    end.

(** A component's state cells together with the browser's [localStorage]
    ([getItem] is the lookup, [null] being [None]). *)
Record world (C : Type) : Type := World {
  component : C;
  localStorage : gmap string string
}.
Arguments World {C} _ _.
Arguments component {C} _.
Arguments localStorage {C} _.

(** A [setState] call of the component. *)
Definition update {C} (f : C -> C) : M (world C) unit :=
  modify (fun w => World (f (component w)) (localStorage w)).

Definition getItem {C} (key : string) : M (world C) (option string) :=
  gets (fun w => localStorage w !! key).

(** [localStorage.setItem]; the quota is not modelled, the write succeeds. *)
Definition setItem {C} (key text : string) : M (world C) unit :=
  modify (fun w => World (component w) (<[key := text]> (localStorage w))).

(** The final state of a computation. *)
Definition exec {S A} (m : M S A) (s : S) : S := snd (m s).

End JS.

(** ** The settings modal (SettingsModal, page.tsx lines 101-139) *)
Module SettingsModal.
Import JS.

Definition settings_key : string := "ai-news-digest-settings".

(** One field per [useState] cell.  The cells are typed [string] (and an
    object of four booleans) in the source, but the load effect stores what
    [JSON.parse] returned, unchecked: at run time each holds a value. *)
Record state : Type := State {
  slackChannel : value;
  deliveryTime : value;
  timezone : value;
  categories : value;
  statusMessage : string
}.

(** The [useState] initial values. *)
Definition initial : state := {|
  slackChannel := VStr "";
  deliveryTime := VStr "10:00";
  timezone := VStr "America/New_York";
  categories := VObj [("breaking", VBool true); ("research", VBool true);
                      ("trends", VBool true); ("startups", VBool true)];
  statusMessage := ""
|}.

Definition setSlackChannel (v : value) : M (world state) unit :=
  update (fun st => State v (deliveryTime st) (timezone st) (categories st) (statusMessage st)).
Definition setDeliveryTime (v : value) : M (world state) unit :=
  update (fun st => State (slackChannel st) v (timezone st) (categories st) (statusMessage st)).
Definition setTimezone (v : value) : M (world state) unit :=
  update (fun st => State (slackChannel st) (deliveryTime st) v (categories st) (statusMessage st)).
Definition setCategories (v : value) : M (world state) unit :=
  update (fun st => State (slackChannel st) (deliveryTime st) (timezone st) v (statusMessage st)).
Definition setStatusMessage (m : string) : M (world state) unit :=
  update (fun st => State (slackChannel st) (deliveryTime st) (timezone st) (categories st) m).

(** [{ slackChannel, deliveryTime, timezone, categories }]: the settings the
    modal holds. *)
Definition settings (st : state) : value :=
  VObj [("slackChannel", slackChannel st); ("deliveryTime", deliveryTime st);
        ("timezone", timezone st); ("categories", categories st)].

Section Effects.
Context `{Platform}.

(** The effect that runs when [isOpen] changes (lines 113-129); the spec calls
    it loadSettings.  [categories] in the last fallback is the state cell as
    the effect's closure captured it. *)
Definition loadSettings (isOpen : bool) : M (world state) unit :=
  if isOpen then
    captured ← gets (fun w => categories (component w));
    saved ← getItem settings_key;
    match saved with
    | Some text =>
        if String.eqb text "" then mret tt
        else
          try_catch
            (parsed ← lift (parse text);
             v ← lift (get parsed "slackChannel");
             setSlackChannel (or_else v (VStr "")) ;;
             v ← lift (get parsed "deliveryTime");
             setDeliveryTime (or_else v (VStr "10:00")) ;;
             v ← lift (get parsed "timezone");
             setTimezone (or_else v (VStr "America/New_York")) ;;
             v ← lift (get parsed "categories");
             setCategories (or_else v captured))
            (fun _ => mret tt)            (* Ignore parse errors *)
    | None => mret tt
    end
  else mret tt.

(** What the load effect reads from the store: nothing when the item is
    missing or empty, when its text is not JSON, or when it is [null] (the
    first property read throws and the [catch] ignores it). *)
Definition stored_settings (ls : gmap string string) : option value :=
  match ls !! settings_key with
  | Some text =>
      if String.eqb text "" then None
      else match JSON_parse text with
           | Some parsed => if nullish parsed then None else Some parsed
           | None => None
           end
  | None => None
  end.

(** Lines 131-139.  The timer that clears the message and closes the modal
    1.5 s later is outside the model. *)
Definition handleSave : M (world state) unit :=
  st ← gets component;
  setItem settings_key (JSON_stringify (settings st)) ;;
  setStatusMessage "Settings saved successfully".

End Effects.

(** The settings record as the TypeScript types and the spec have it. *)
Record Categories : Type := {
  breaking : bool;
  research : bool;
  trends : bool;
  startups : bool
}.

Record Settings : Type := {
  s_slackChannel : string;
  s_deliveryTime : string;
  s_timezone : string;
  s_categories : Categories
}.

Definition encode_categories (c : Categories) : value :=
  VObj [("breaking", VBool (breaking c)); ("research", VBool (research c));
        ("trends", VBool (trends c)); ("startups", VBool (startups c))].

(** The object a well-typed settings record is at run time. *)
Definition encode (s : Settings) : value :=
  VObj [("slackChannel", VStr (s_slackChannel s)); ("deliveryTime", VStr (s_deliveryTime s));
        ("timezone", VStr (s_timezone s)); ("categories", encode_categories (s_categories s))].


Definition is_digit (c : ascii) : bool :=
  (48 <=? nat_of_ascii c)%nat && (nat_of_ascii c <=? 57)%nat.

(** The text of an [<input type="time">]: HH:MM. *)
Definition is_HHMM (t : string) : bool :=
  match t with
  | String h1 (String h2 (String c (String m1 (String m2 EmptyString)))) =>
      is_digit h1 && is_digit h2 && Ascii.eqb c ":"%char && is_digit m1 && is_digit m2
  | _ => false
  end.

(** A settings record as the data model describes it: a delivery time of the
    form HH:MM and a time-zone name (which is never empty). *)
Definition well_formed (s : Settings) : Prop :=
  is_HHMM (s_deliveryTime s) = true /\ s_timezone s <> "".

End SettingsModal.

(** ** The page (Home, page.tsx lines 247-408) *)
Module Home.
Import JS.

Definition history_key : string := "ai-news-digest-history".

(** The cells of [Home] that the modelled functions touch.  [digest] is
    [null] until a digest is fetched; an entry of [history] is a
    [DigestHistory] object, or whatever the stored array held. *)
Record state : Type := State {
  loading : bool;
  statusMessage : string;
  digest : value;
  history : list value
}.

Definition initial : state := {|
  loading := false;
  statusMessage := "";
  digest := VNull;
  history := []
|}.

Definition setLoading (b : bool) : M (world state) unit :=
  update (fun st => State b (statusMessage st) (digest st) (history st)).
Definition setStatusMessage (m : string) : M (world state) unit :=
  update (fun st => State (loading st) m (digest st) (history st)).
Definition setDigest (d : value) : M (world state) unit :=
  update (fun st => State (loading st) (statusMessage st) d (history st)).
Definition setHistory (h : list value) : M (world state) unit :=
  update (fun st => State (loading st) (statusMessage st) (digest st) h).

(** The clock as one call of [saveToHistory] reads it, in the order of the
    reads: [Date.now()] for the id, [new Date()] for the fallback date,
    [Date.now()] for the timestamp. *)
Record readings : Type := Readings {
  id_now : Z;
  date_now : Z;
  timestamp_now : Z
}.

(** The relative-time thresholds of [formatNextRun]. *)
Definition ms_per_hour : Z := 1000 * 60 * 60.
Definition ms_per_minute : Z := 1000 * 60.

(** What [fetchNews] closes over: the setters and [saveToHistory]. *)
Record callees (S : Type) : Type := Callees {
  call_setLoading : bool -> M S unit;
  call_setStatusMessage : string -> M S unit;
  call_setDigest : value -> M S unit;
  call_saveToHistory : value -> M S unit
}.
Arguments call_setLoading {S} _ _.
Arguments call_setStatusMessage {S} _ _.
Arguments call_setDigest {S} _ _.
Arguments call_saveToHistory {S} _ _.

Section Functions.
Context `{Platform}.

(** Lines 266-278. *)
Definition loadHistory : M (world state) unit :=
  saved ← getItem history_key;
  match saved with
  | Some text =>
      if String.eqb text "" then mret tt
      else
        try_catch
          (parsed ← lift (parse text);
           match parsed with
           | VArr items => setHistory items
           | _ => mret tt
           end)
          (fun _ => mret tt)              (* Ignore parse errors *)
  | None => mret tt
  end.

(** The [newItem] of [saveToHistory] (lines 281-286). *)
Definition newItem (now : readings) (digestData : value) : completion value :=
  let id := Number_toString (Int (id_now now)) in
  digest_date ← get digestData "digest_date";
  mret (VObj [("id", VStr id);
              ("date", or_else digest_date (VStr (toLocaleDateString (date_now now))));
              ("data", digestData);
              ("timestamp", VNum (Int (timestamp_now now)))]).

(** Lines 280-291.  [history] is the cell as the render in which the call
    runs sees it; each call of a sequence runs in the render that follows
    the previous call's [setHistory]. *)
Definition saveToHistory (now : readings) (digestData : value) : M (world state) unit :=
  item ← lift (newItem now digestData);
  history ← gets (fun w => history (component w));
  let updated := take 20 (item :: history) in     (* Keep last 20 *)
  setHistory updated ;;
  setItem history_key (JSON_stringify (VArr updated)).

(** Lines 307-333, over the callees it closes over.  [answer] is how
    [await callAIAgent(...)] completes: with the gateway's result, or with
    what the promise was rejected with. *)
Definition fetchNews_body {S} (c : callees S) (answer : completion value) : M S unit :=
  call_setLoading c true ;;
  call_setStatusMessage c "" ;;
  try_finally
    (try_catch
       (result ← lift answer;
        success ← lift (get result "success");
        (* result.success && result.response?.result *)
        cond ← (if truthy success
                then response ← lift (get result "response");
                     lift (get_opt response "result")
                else mret success);
        if truthy cond then
          response ← lift (get result "response");
          digestData ← lift (get response "result");
          (* digestData && Array.isArray(digestData.categories) *)
          valid ← (if truthy digestData
                   then categories ← lift (get digestData "categories");
                        mret (VBool (isArray categories))
                   else mret digestData);
          if truthy valid then
            call_setDigest c digestData ;;
            call_saveToHistory c digestData ;;
            call_setStatusMessage c "✓ News digest fetched successfully"
          else
            call_setStatusMessage c "✗ Invalid response format"
        else
          error ← lift (get result "error");
          text ← lift (ToString (or_else error (VStr "Unknown error")));
          call_setStatusMessage c ("✗ Failed to fetch news: " +:+ text))
       (fun error =>
          call_setStatusMessage c ("✗ Error: " +:+ message_or error "Unknown error")))
    (call_setLoading c false).

(** The callees of the page itself. *)
Definition page_callees (now : readings) : callees (world state) := {|
  call_setLoading := setLoading;
  call_setStatusMessage := setStatusMessage;
  call_setDigest := setDigest;
  call_saveToHistory := saveToHistory now
|}.

Definition fetchNews (now : readings) (answer : completion value) : M (world state) unit :=
  fetchNews_body (page_callees now) answer.

(** The body of the [try] of [formatNextRun] (lines 382-404); [now] is the
    time value of [new Date()]. *)
Definition formatNextRun_try (now : Z) (isoString : string) : completion string :=
  let date := match Date_parse isoString with Some t => Int t | None => NaN end in
  let diffMs := sub date (Int now) in
  if lt diffMs (Int 0) then mret "Past due"
  else
    let diffHours := floor_div diffMs (Int ms_per_hour) in
    let diffMins := floor_div (rem diffMs (Int ms_per_hour)) (Int ms_per_minute) in
    if lt diffHours (Int 1) then
      mret ("In " +:+ Number_toString diffMins +:+ " minute"
              +:+ (if strict_ne diffMins (Int 1) then "s" else ""))
    else if lt diffHours (Int 24) then
      mret ("In " +:+ Number_toString diffHours +:+ " hour"
              +:+ (if strict_ne diffHours (Int 1) then "s" else ""))
    else
      (* date.toLocaleString('en-US', options); of an invalid date it is
         the text "Invalid Date" *)
      mret (match date with
            | Int t => toLocaleString_en_US t
            | NaN => "Invalid Date"
            end).

(** Lines 378-408; [None] is a null or absent argument. *)
Definition formatNextRun (now : Z) (isoString : option string) : string :=
  match isoString with
  | None => "Not scheduled"
  | Some text =>
      if String.eqb text "" then "Not scheduled"
      else
        match formatNextRun_try now text with
        | Normal s => s
        | Abrupt _ => "Invalid date"
        end
  end.

End Functions.

(** Counting the calls of [saveToHistory] in a run of [fetchNews]: the
    callees that only count, over the number of calls so far. *)
Definition counting : callees nat := {|
  call_setLoading := fun _ => mret tt;
  call_setStatusMessage := fun _ => mret tt;
  call_setDigest := fun _ => mret tt;
  call_saveToHistory := fun _ => modify S
|}.

Definition saveToHistory_calls `{Platform} (answer : completion value) : nat :=
  exec (fetchNews_body counting answer) 0%nat.

(** [result.response?.result] of the gateway's result. *)
Definition payload (result : value) : value :=
  field (field result "response") "result".

(** The gateway reports success and the payload's [categories] is an array. *)
Definition accepted (answer : completion value) : bool :=
  match answer with
  | Normal result =>
      truthy (field result "success") && isArray (field (payload result) "categories")
  | Abrupt _ => false
  end.

(** The error kinds of the controller's contract (spec, section 4.4); a
    gateway failure carries the message shown. *)
Inductive ErrorKind : Type :=
| GatewayFailure (message : string)
| InvalidResponseShape.

(** The contract of a fetch, read off the answer of the gateway: the digest
    when the gateway reports success with a payload whose [categories] is an
    array; the invalid shape when it reports success with a payload (a
    truthy one) that has no such array; a gateway failure when it reports no
    success or no payload, or when the call throws.  The failure shown is
    the reported [error] as a text, or the error thrown, which is also what
    converting the reported [error] to a text may do. *)
Definition fetchDigest `{Platform} (answer : completion value) : ErrorKind + value :=
  match answer with
  | Abrupt e => inl (GatewayFailure ("✗ Error: " +:+ message_or e "Unknown error"))
  | Normal result =>
      if nullish result then
        inl (GatewayFailure ("✗ Error: " +:+ TypeError_message result "success"))
      else if truthy (field result "success") && truthy (payload result) then
        if isArray (field (payload result) "categories") then inr (payload result)
        else inl InvalidResponseShape
      else
        match ToString (or_else (field result "error") (VStr "Unknown error")) with
        | Normal text => inl (GatewayFailure ("✗ Failed to fetch news: " +:+ text))
        | Abrupt e => inl (GatewayFailure ("✗ Error: " +:+ message_or e "Unknown error"))
        end
  end.

Definition shown (kind : ErrorKind) : string :=
  match kind with
  | GatewayFailure message => message
  | InvalidResponseShape => "✗ Invalid response format"
  end.

(** A sequence of calls of [saveToHistory], each with its clock readings
    and its digest. *)
Fixpoint saveAll `{Platform} (calls : list (readings * value)) : M (world state) unit :=
  match calls with
  | [] => mret tt
  | (now, digestData) :: rest => saveToHistory now digestData ;; saveAll rest
  end.

(** The entries a successful sequence of calls creates, oldest first. *)
Definition created `{Platform} (calls : list (readings * value)) (items : list value) : Prop :=
  Forall2 (fun c item => newItem c.1 c.2 = Normal item) calls items.

End Home.

(** ** The cron humanizer ([cronToHuman] of '@/lib/scheduler') *)
Module Scheduler.

Definition is_digit (c : ascii) : bool :=
  (48 <=? nat_of_ascii c)%nat && (nat_of_ascii c <=? 57)%nat.

(** [text.split(' ')]. *)
Fixpoint split_on_space (text : string) : list string :=
  match text with
  | EmptyString => [""]
  | String c rest =>
      let parts := split_on_space rest in
      if Ascii.eqb c " "%char then "" :: parts
      else match parts with
           | p :: ps => String c p :: ps
           | [] => [String c ""]
           end
  end.

Fixpoint digits_value (acc : nat) (token : string) : option nat :=
  match token with
  | EmptyString => Some acc
  | String c rest =>
      if is_digit c then digits_value (10 * acc + (nat_of_ascii c - 48)) rest
      else None
  end.

(** A token that is a decimal number. *)
Definition parse_number (token : string) : option nat :=
  match token with
  | EmptyString => None
  | _ => digits_value 0 token
  end.

(** Modelled from the spec: the source of [cronToHuman] ('@/lib/scheduler')
    is not among the sources; section 4.1 of the spec describes it.  What
    the humanizer reads from a 5-field expression (minute, hour,
    day-of-month, month, day-of-week, space-separated): the fixed minute and
    hour of a schedule whose other three fields are wildcards, the one case
    the spec requires it to handle.  [None] on a field count mismatch or an
    unparseable token. *)
Definition parse_cron (cronExpression : string) : option (nat * nat) :=
  match split_on_space cronExpression with
  | [minute; hour; "*"; "*"; "*"] =>
      match parse_number minute, parse_number hour with
      | Some m, Some h => if (m <? 60)%nat && (h <? 24)%nat then Some (h, m) else None
      | _, _ => None
      end
  | _ => None
  end.

Definition pad2 (n : nat) : string :=
  if (n <? 10)%nat then "0" +:+ pretty n else pretty n.

(** Modelled from the spec: the hour on the 12-hour clock with its AM/PM
    suffix, the minute zero-padded to two digits ("Daily at 10:00 AM"). *)
Definition daily_at (hour minute : nat) : string :=
  let h12 := if (hour mod 12 =? 0)%nat then 12%nat else (hour mod 12)%nat in
  "Daily at " +:+ pretty h12 +:+ ":" +:+ pad2 minute +:+ " "
    +:+ (if (hour <? 12)%nat then "AM" else "PM").

(** Modelled from the spec: [cronToHuman] of '@/lib/scheduler' (section 4.1):
    a sentence for a parseable expression, the expression itself, unchanged,
    otherwise. *)
Definition cronToHuman (cronExpression : string) : string :=
  match parse_cron cronExpression with
  | Some (h, m) => daily_at h m
  | None => cronExpression
  end.

End Scheduler.

(** ** A sample of the platform

    The built-ins at the few arguments the examples below evaluate them at
    (a table of [JSON.parse], of [Date]'s parser), and a printer for
    [JSON.stringify] that covers the values of the examples (strings without
    characters to escape). *)
Module Sample.
Import JS.

Definition dq : string := String (ascii_of_nat 34) EmptyString.

Definition quoted (s : string) : string := dq +:+ s +:+ dq.

Fixpoint stringify (v : value) : string :=
  match v with
  | VUndefined | VNull | VNum NaN => "null"
  | VBool b => if b then "true" else "false"
  | VNum (Int z) => pretty z
  | VStr s => quoted s
  | VArr items => "[" +:+ join "," (List.map stringify items) +:+ "]"
  | VObj fields =>
      "{" +:+ join "," (List.map (fun kv => quoted (fst kv) +:+ ":" +:+ stringify (snd kv)) fields)
          +:+ "}"
  end.

(** Settings as a user may have saved them. *)
Definition saved_settings : SettingsModal.Settings := {|
  SettingsModal.s_slackChannel := "C01234567890";
  SettingsModal.s_deliveryTime := "08:30";
  SettingsModal.s_timezone := "America/Chicago";
  SettingsModal.s_categories :=
    {| SettingsModal.breaking := true; SettingsModal.research := false;
       SettingsModal.trends := true; SettingsModal.startups := false |}
|}.

(** The stored text [{"slackChannel":"X"}]. *)
Definition only_channel : value := VObj [("slackChannel", VStr "X")].

(** The stored text [{"categories":{"breaking":false}}]. *)
Definition only_breaking : value := VObj [("categories", VObj [("breaking", VBool false)])].

(** Settings saved after the time input was cleared. *)
Definition cleared_time : SettingsModal.Settings := {|
  SettingsModal.s_slackChannel := "C01234567890";
  SettingsModal.s_deliveryTime := "";
  SettingsModal.s_timezone := "America/Chicago";
  SettingsModal.s_categories := SettingsModal.s_categories saved_settings
|}.

(** A digest as the agent returns it, and the history holding its entry. *)
Definition digest_0 : value :=
  VObj [("digest_date", VStr "2024-03-05"); ("categories", VArr []);
        ("total_stories", VNum (Int 0)); ("slack_posted", VBool false)].

Definition history_0 : value :=
  VArr [VObj [("id", VStr "1709632800000"); ("date", VStr "2024-03-05");
              ("data", digest_0); ("timestamp", VNum (Int 1709632800000))]].

Definition parse_table : list (string * value) :=
  [ (stringify only_channel, only_channel);
    (stringify only_breaking, only_breaking);
    (stringify (SettingsModal.encode saved_settings), SettingsModal.encode saved_settings);
    (stringify (SettingsModal.encode cleared_time), SettingsModal.encode cleared_time);
    (stringify history_0, history_0);
    ("null", VNull) ].

Fixpoint lookup_table {A} (key : string) (table : list (string * A)) : option A :=
  match table with
  | [] => None
  | (k, a) :: rest => if String.eqb key k then Some a else lookup_table key rest
  end.

(** 2024-03-05T10:00:00.000Z is 1709632800000 ms after the epoch. *)
Definition sample_iso : string := "2024-03-05T10:00:00.000Z".
Definition sample_instant : Z := 1709632800000.

Definition date_table : list (string * Z) :=
  [ (sample_iso, sample_instant) ].

(** "null" or "undefined", as the engine's messages name them. *)
Definition nullish_name (base : value) : string :=
  match base with
  | VNull => "null"
  | _ => "undefined"
  end.

(** 1e21 prints in exponent notation. *)
Definition large_table : list (string * string) :=
  [ ("1000000000000000000000", "1e+21") ].

Definition platform : Platform := {|
  JSON_stringify := stringify;
  JSON_parse := fun text => lookup_table text parse_table;
  Date_parse := fun text => lookup_table text date_table;
  toLocaleString_en_US := fun _ => "Mar 5, 10:00 AM";     (* of [sample_instant], in UTC *)
  toLocaleDateString := fun _ => "3/5/2024";
  TypeError_message := fun base key =>
    "Cannot read properties of " +:+ nullish_name base +:+ " (reading '" +:+ key +:+ "')";
  SyntaxError_message := fun _ => "Unexpected token";
  ToPrimitive_message := "Cannot convert object to primitive value";
  Number_toString_large := fun z => default "" (lookup_table (pretty z) large_table)
|}.

(** [{success: true}]: success reported, no response and so no payload. *)
Definition success_without_payload : value := VObj [("success", VBool true)].

(** The [n]-th call of a sequence of fetches one minute apart, and the
    first [n] of them. *)
Definition call (n : nat) : Home.readings * value :=
  let t := (sample_instant + 60000 * Z.of_nat n)%Z in
  (Home.Readings t t t, digest_0).

Definition calls (n : nat) : list (Home.readings * value) := List.map call (seq 0 n).

Definition entry (n : nat) : value :=
  match Home.newItem (H := platform) (call n).1 (call n).2 with
  | Normal item => item
  | Abrupt _ => VUndefined
  end.

End Sample.

(** ** The view state of the history list (Home, lines 252-253, 349-376) *)
Module HistoryView.
Import JS.

(** The two [Set<string>] cells: the ids of the expanded entries and the
    selected category names.  Only membership is ever observed. *)
Record state : Type := State {
  expandedHistory : gset string;
  categoryFilters : gset string
}.

Definition initial : state := {|
  expandedHistory := ∅;
  categoryFilters := {[ "Breaking"; "Research"; "Trends"; "Startups" ]}
|}.

(** The updater that both toggles pass to their setter: a copy of [prev]
    with [x] deleted when [prev] has it, added otherwise. *)
Definition toggled (x : string) (prev : gset string) : gset string :=
  let updated := prev in
  if decide (x ∈ updated) then updated ∖ {[ x ]} else updated ∪ {[ x ]}.

(** Lines 349-359. *)
Definition toggleHistoryItem (id : string) (st : state) : state :=
  State (toggled id (expandedHistory st)) (categoryFilters st).

(** Lines 361-371. *)
Definition toggleCategoryFilter (category : string) (st : state) : state :=
  State (expandedHistory st) (toggled category (categoryFilters st)).

(** [set.has(v)] on a set of strings: no other value is the same as one. *)
Definition has (set : gset string) (v : value) : bool :=
  match v with
  | VStr s => bool_decide (s ∈ set)
  | _ => false
  end.

(** [categories.filter(cat => categoryFilters.has(cat.category_name))]: the
    callback runs on the elements in order and throws on the first that is
    null or undefined. *)
Fixpoint filter_categories (filters : gset string) (categories : list value)
    : completion (list value) :=
  match categories with
  | [] => mret []
  | cat :: rest =>
      name ← get cat "category_name";
      kept ← filter_categories filters rest;
      mret (if has filters name then cat :: kept else kept)
  end.

(** Lines 373-376. *)
Definition getFilteredCategories (st : state) (categories : value)
    : completion (list value) :=
  match categories with
  | VArr items => filter_categories (categoryFilters st) items
  | _ => mret []
  end.

(** Whether the filter callback keeps [cat], and whether [cat] is named
    [category]. *)
Definition selected (st : state) (cat : value) : bool :=
  has (categoryFilters st) (field cat "category_name").

Definition named (category : string) (cat : value) : bool :=
  match field cat "category_name" with
  | VStr s => String.eqb s category
  | _ => false
  end.

(** [getFilteredCategories(item.data.categories || [])] of the history list
    (line 616). *)
Definition filteredCategories (st : state) (item : value) : completion (list value) :=
  data ← get item "data";
  categories ← get data "categories";
  getFilteredCategories st (or_else categories (VArr [])).

(** [expandedHistory.has(item.id)] for an entry whose id is a string
    (line 615). *)
Definition isExpanded (st : state) (id : string) : bool :=
  bool_decide (id ∈ expandedHistory st).

End HistoryView.

(** ** The schedule panel (Home, lines 256-259, 293-305, 335-347) *)
Module ScheduleControl.
Import JS.

Definition SCHEDULE_ID : string := "698e0e07ebe6fd87d1dcc1b9".

(** What the page asks of the schedule gateway ('@/lib/scheduler'). *)
Inductive request : Type :=
| GetSchedule (id : string)
| GetScheduleLogs (id : string) (limit : Z)
| PauseSchedule (id : string)
| ResumeSchedule (id : string).

(** The schedule cells of [Home], and the requests sent so far, oldest
    first.  [schedule] is [null] until one is loaded. *)
Record state : Type := State {
  schedule : value;
  scheduleLoading : bool;
  executionLogs : list value;
  sent : list request
}.

Definition initial : state := {|
  schedule := VNull;
  scheduleLoading := false;
  executionLogs := [];
  sent := []
|}.

Definition setSchedule (v : value) : M state unit :=
  modify (fun st => State v (scheduleLoading st) (executionLogs st) (sent st)).
Definition setScheduleLoading (b : bool) : M state unit :=
  modify (fun st => State (schedule st) b (executionLogs st) (sent st)).
Definition setExecutionLogs (l : list value) : M state unit :=
  modify (fun st => State (schedule st) (scheduleLoading st) l (sent st)).

(** How the gateway completes each request: with a result, or by rejecting
    the promise. *)
Definition gateway : Type := request -> completion value.

(** [await] of a gateway call. *)
Definition await (g : gateway) (r : request) : M state value :=
  fun st =>
    (g r, State (schedule st) (scheduleLoading st) (executionLogs st) (sent st ++ [r])).

(** Lines 293-305. *)
Definition loadScheduleStatus (g : gateway) : M state unit :=
  setScheduleLoading true ;;
  scheduleData ← await g (GetSchedule SCHEDULE_ID);
  (* scheduleData?.success && scheduleData.schedule *)
  success ← lift (get_opt scheduleData "success");
  cond ← (if truthy success then lift (get scheduleData "schedule") else mret success);
  (if truthy cond then
     found ← lift (get scheduleData "schedule");
     setSchedule found
   else mret tt) ;;
  logsData ← await g (GetScheduleLogs SCHEDULE_ID 10);
  (* logsData.success && Array.isArray(logsData.executions) *)
  success ← lift (get logsData "success");
  cond ← (if truthy success
          then executions ← lift (get logsData "executions");
               mret (VBool (isArray executions))
          else mret success);
  (if truthy cond then
     executions ← lift (get logsData "executions");
     match executions with
     | VArr items => setExecutionLogs items
     | _ => mret tt
     end
   else mret tt) ;;
  setScheduleLoading false.

(** Lines 335-347; [schedule] is the cell as the render of the click sees
    it. *)
Definition toggleSchedule (g : gateway) : M state unit :=
  current ← gets schedule;
  if negb (truthy current) then mret tt
  else
    setScheduleLoading true ;;
    active ← lift (get current "is_active");
    result ← (if truthy active
              then await g (PauseSchedule SCHEDULE_ID)
              else await g (ResumeSchedule SCHEDULE_ID));
    success ← lift (get result "success");
    (if truthy success then loadScheduleStatus g else mret tt) ;;
    setScheduleLoading false.

(** What a refresh shows of the gateway's two results: the schedule of a
    successful result that has one, the executions of a successful result
    whose [executions] is an array. *)
Definition loaded_schedule (scheduleData : value) : option value :=
  if truthy (field scheduleData "success") && truthy (field scheduleData "schedule")
  then Some (field scheduleData "schedule") else None.

Definition loaded_logs (logsData : value) : option (list value) :=
  if truthy (field logsData "success")
  then match field logsData "executions" with
       | VArr items => Some items
       | _ => None
       end
  else None.

(** What makes a refresh throw: the rejection of either call, or a logs
    result that is null or undefined (its [success] cannot be read). *)
Definition refresh_error (g : gateway) : option thrown :=
  match g (GetSchedule SCHEDULE_ID) with
  | Abrupt e => Some e
  | Normal _ =>
      match g (GetScheduleLogs SCHEDULE_ID 10) with
      | Abrupt e => Some e
      | Normal logsData =>
          if nullish logsData then Some (TypeError logsData "success") else None
      end
  end.

(** The request a click on the toggle sends for the schedule it sees. *)
Definition toggle_request (current : value) : request :=
  if truthy (field current "is_active") then PauseSchedule SCHEDULE_ID
  else ResumeSchedule SCHEDULE_ID.

End ScheduleControl.

(** ** The category checkboxes of the settings modal (lines 208-223) *)
Module SettingsForm.
Import JS.

Section Spread.
(** The UTF-16 code units of a text, each as a text of its own: what the
    indexed properties of a string are. *)
Variable code_units : string -> list string.

(** The own enumerable properties that [{...v}] copies. *)
Definition own_properties (v : value) : list (string * value) :=
  match v with
  | VObj fields => fields
  | VArr items => imap (fun i x => (pretty i, x)) items
  | VStr s => imap (fun i c => (pretty i, VStr c)) (code_units s)
  | _ => []
  end.

(** [{...fields, [key]: v}]: the value of an existing property is replaced
    in its place, a new property comes last. *)
Fixpoint set_property (key : string) (v : value) (fields : list (string * value))
    : list (string * value) :=
  match fields with
  | [] => [(key, v)]
  | (k, old) :: rest =>
      if String.eqb key k then (k, v) :: rest
      else (k, old) :: set_property key v rest
  end.

(** The updater of a checkbox's [onChange] (line 218):
    [prev => ({ ...prev, [key]: e.target.checked })]. *)
Definition onChange (key : string) (checked : bool) (prev : value) : value :=
  VObj (set_property key (VBool checked) (own_properties prev)).

(** [setCategories(prev => ...)]. *)
Definition changeCategory (key : string) (checked : bool)
    : M (world SettingsModal.state) unit :=
  update (fun st =>
    SettingsModal.State (SettingsModal.slackChannel st) (SettingsModal.deliveryTime st)
      (SettingsModal.timezone st) (onChange key checked (SettingsModal.categories st))
      (SettingsModal.statusMessage st)).

End Spread.

(** The record that loading gives back for a saved one: an empty delivery
    time and an empty time zone are replaced by their defaults. *)
Definition reloaded (s : SettingsModal.Settings) : SettingsModal.Settings := {|
  SettingsModal.s_slackChannel := SettingsModal.s_slackChannel s;
  SettingsModal.s_deliveryTime :=
    if String.eqb (SettingsModal.s_deliveryTime s) "" then "10:00"
    else SettingsModal.s_deliveryTime s;
  SettingsModal.s_timezone :=
    if String.eqb (SettingsModal.s_timezone s) "" then "America/New_York"
    else SettingsModal.s_timezone s;
  SettingsModal.s_categories := SettingsModal.s_categories s
|}.

(** The keys of the four checkboxes (lines 209-212). *)
Definition checkbox_keys : list string := ["breaking"; "research"; "trends"; "startups"].

End SettingsForm.

(** ** What the stored history reads as *)
Module HistoryStore.
Import JS.

(** What [loadHistory] reads from the store: the elements of the stored
    array; nothing when the item is missing or empty, when its text is not
    JSON, or when it is not an array. *)
Definition stored_history `{Platform} (ls : gmap string string) : option (list value) :=
  match ls !! Home.history_key with
  | Some text =>
      if String.eqb text "" then None
      else match JSON_parse text with
           | Some (VArr items) => Some items
           | _ => None
           end
  | None => None
  end.

(** The [id] of each entry of a history. *)
Definition ids (history : list value) : list value :=
  List.map (fun item => field item "id") history.

End HistoryStore.

(** ** More samples *)
Module Sample2.
Import JS.

Definition category (name : string) : value :=
  VObj [("category_name", VStr name); ("stories", VArr [])].

(** Three categories, the second of a name that is not one of the four
    filters. *)
Definition categories : list value :=
  [category "Breaking"; category "Policy"; category "Research"].

Definition digest : value :=
  VObj [("digest_date", VStr "2024-03-05"); ("categories", VArr categories);
        ("total_stories", VNum (Int 0)); ("slack_posted", VBool false)].

Definition fetched : value :=
  VObj [("success", VBool true); ("response", VObj [("result", digest)])].

(** A stored history of 25 entries. *)
Definition long_history : list value := List.map Sample.entry (seq 0 25).

Definition long_history_text : string := Sample.stringify (VArr long_history).

Definition platform : Platform := {|
  JSON_stringify := Sample.stringify;
  JSON_parse := fun text =>
    Sample.lookup_table text [(long_history_text, VArr long_history)];
  Date_parse := fun text => Sample.lookup_table text Sample.date_table;
  toLocaleString_en_US := fun _ => "Mar 5, 10:00 AM";
  toLocaleDateString := fun _ => "3/5/2024";
  TypeError_message := fun base key =>
    "Cannot read properties of " +:+ Sample.nullish_name base
      +:+ " (reading '" +:+ key +:+ "')";
  SyntaxError_message := fun _ => "Unexpected token";
  ToPrimitive_message := "Cannot convert object to primitive value";
  Number_toString_large := fun z =>
    default "" (Sample.lookup_table (pretty z) Sample.large_table)
|}.

Definition active_schedule : value :=
  VObj [("is_active", VBool true); ("cron_expression", VStr "0 10 * * *");
        ("next_run_time", VStr Sample.sample_iso)].

Definition paused_schedule : value :=
  VObj [("is_active", VBool false); ("cron_expression", VStr "0 10 * * *");
        ("next_run_time", VNull)].

Definition executions : list value :=
  [VObj [("id", VStr "e1"); ("success", VBool true);
         ("executed_at", VStr Sample.sample_iso)]].

(** A gateway that confirms a pause and then reports the paused schedule. *)
Definition pausing : ScheduleControl.gateway := fun r =>
  match r with
  | ScheduleControl.GetSchedule _ =>
      Normal (VObj [("success", VBool true); ("schedule", paused_schedule)])
  | ScheduleControl.GetScheduleLogs _ _ =>
      Normal (VObj [("success", VBool true); ("executions", VArr executions)])
  | ScheduleControl.PauseSchedule _ | ScheduleControl.ResumeSchedule _ =>
      Normal (VObj [("success", VBool true)])
  end.

(** A gateway that refuses to pause or resume. *)
Definition refusing : ScheduleControl.gateway := fun r =>
  match r with
  | ScheduleControl.PauseSchedule _ | ScheduleControl.ResumeSchedule _ =>
      Normal (VObj [("success", VBool false); ("error", VStr "Not allowed")])
  | _ => pausing r
  end.

(** A gateway that cannot be reached. *)
Definition unreachable : ScheduleControl.gateway := fun _ =>
  Abrupt (ErrorObject "Failed to fetch").

Definition showing_active : ScheduleControl.state :=
  ScheduleControl.State active_schedule false [] [].

End Sample2.

(** * Proof automation *)

(** The case analysis that [fetchNews] makes of the gateway's result. *)
Ltac fetch_cases result Hnull Hsuccess Hresp Hpay Hpaynull Harr :=
  destruct (JS.nullish result) eqn:Hnull;
  [| destruct (JS.truthy (JS.field result "success")) eqn:Hsuccess;
     [ destruct (JS.nullish (JS.field result "response")) eqn:Hresp;
       [ assert (JS.field (JS.field result "response") "result" = JS.VUndefined) as Hpay
           by (by destruct (JS.field result "response"))
       | destruct (JS.truthy (JS.field (JS.field result "response") "result")) eqn:Hpay;
         [ assert (JS.nullish (JS.field (JS.field result "response") "result") = false) as Hpaynull
             by (by destruct (JS.field (JS.field result "response") "result"));
           destruct (JS.isArray (JS.field (JS.field (JS.field result "response") "result") "categories"))
             eqn:Harr
         | ] ]
     | ] ].

Ltac fetch_step :=
  repeat first
    [ progress cbn beta iota zeta delta [fst snd andb JS.truthy JS.nullish]
    | match goal with
      | Heq : ?t = _ |- context [?t] => rewrite Heq
      end
    | match goal with
      | |- context [JS.ToString ?v] => destruct (JS.ToString v) eqn:?
      end ].

(** * Properties *)

Lemma nonempty_eqb (text : string) : text <> "" -> String.eqb text "" = false.
Proof. intros Hne. by apply String.eqb_neq. Qed.

(** ** [formatNextRun] *)
Section FormatNextRun.
Import JS Home.
Context `{Platform}.

Local Open Scope Z_scope.

(** The [try] block of [formatNextRun] completes normally whatever the text
    and the clock are: its [catch] is unreachable. *)
Lemma formatNextRun_try_normal (now : Z) (text : string) :
  exists s, formatNextRun_try now text = Normal s.
Proof.
  unfold formatNextRun_try.
  repeat match goal with
         | |- context [if ?b then _ else _] => destruct b
         end; eauto.
Qed.

(** On a parsable, non-empty text the result is decided by the difference
    [t - now] alone. *)
Lemma formatNextRun_parsed (now t : Z) (text : string) :
  text <> "" -> Date_parse text = Some t ->
  formatNextRun now (Some text) =
    let diffMs := t - now in
    if diffMs <? 0 then "Past due"
    else
      let diffHours := diffMs / ms_per_hour in
      let diffMins := Z.rem diffMs ms_per_hour / ms_per_minute in
      if diffHours <? 1 then
        "In " +:+ pretty diffMins +:+ " minute" +:+ (if diffMins =? 1 then "" else "s")
      else if diffHours <? 24 then
        "In " +:+ pretty diffHours +:+ " hour" +:+ (if diffHours =? 1 then "" else "s")
      else toLocaleString_en_US t.
Proof.
  intros Hne Hparse. unfold formatNextRun, formatNextRun_try.
  rewrite (nonempty_eqb _ Hne), Hparse. cbn [sub lt].
  destruct (t - now <? 0); [done |].
  unfold rem, floor_div.
  change (ms_per_hour =? 0) with false. change (ms_per_minute =? 0) with false.
  cbn [lt strict_ne Number_toString mret completion_ret].
  destruct (_ <? 1).
  { by destruct (_ =? 1). }
  destruct (_ <? 24); [| done].
  by destruct (_ =? 1).
Qed.

(** C3 (as the code has it): [null], an absent argument and the empty text
    give "Not scheduled"; a text that [Date] cannot parse makes no exception,
    so the "Invalid date" of the [catch] is never produced: the comparisons
    with [NaN] all fail and the result is [toLocaleString] of the invalid
    date, the text "Invalid Date". *)
Theorem formatNextRun_unparsable (now : Z) (text : string) :
  text <> "" -> Date_parse text = None ->
  formatNextRun now None = "Not scheduled" /\
  formatNextRun now (Some "") = "Not scheduled" /\
  formatNextRun now (Some text) = "Invalid Date" /\
  formatNextRun now (Some text) <> "Invalid date".
Proof.
  intros Hne Hparse.
  assert (formatNextRun now (Some text) = "Invalid Date") as Hres.
  { unfold formatNextRun, formatNextRun_try.
    by rewrite (nonempty_eqb _ Hne), Hparse. }
  rewrite Hres. repeat split; done.
Qed.

(** C4: for a parsable instant [t] not before [now], with [diffMs = t - now]:
    below one hour the result is "In N minute(s)" with N the floor of the
    minutes remaining; from one hour and below 24 hours it is "In N hour(s)"
    with N the floor of the hours remaining (no minutes term); the singular
    exactly when N = 1. *)
Theorem formatNextRun_minutes_hours (now t : Z) (text : string) :
  text <> "" -> Date_parse text = Some t -> now <= t ->
  (t - now < ms_per_hour ->
   let N := (t - now) / ms_per_minute in
   formatNextRun now (Some text)
   = "In " +:+ pretty N +:+ " minute" +:+ (if N =? 1 then "" else "s")) /\
  (ms_per_hour <= t - now < 24 * ms_per_hour ->
   let N := (t - now) / ms_per_hour in
   formatNextRun now (Some text)
   = "In " +:+ pretty N +:+ " hour" +:+ (if N =? 1 then "" else "s")).
Proof.
  intros Hne Hparse Hle.
  rewrite (formatNextRun_parsed now t text Hne Hparse). cbv zeta.
  assert ((t - now <? 0) = false) as -> by lia.
  unfold ms_per_hour, ms_per_minute.
  split.
  - intros Hlt.
    rewrite (Z.div_small (t - now)) by lia.
    rewrite Z.rem_small by lia. done.
  - intros [Hlo Hhi].
    assert (1 <= (t - now) / (1000 * 60 * 60)) by (apply Z.div_le_lower_bound; lia).
    assert ((t - now) / (1000 * 60 * 60) < 24) by (apply Z.div_lt_upper_bound; lia).
    assert (((t - now) / (1000 * 60 * 60) <? 1) = false) as -> by lia.
    assert (((t - now) / (1000 * 60 * 60) <? 24) = true) as -> by lia.
    done.
Qed.

(** C5: a parsable instant strictly before [now] is "Past due". *)
Theorem formatNextRun_past_due (now t : Z) (text : string) :
  text <> "" -> Date_parse text = Some t -> t < now ->
  formatNextRun now (Some text) = "Past due".
Proof.
  intros Hne Hparse Hlt.
  rewrite (formatNextRun_parsed now t text Hne Hparse). cbv zeta.
  by assert ((t - now <? 0) = true) as -> by lia.
Qed.

(** C10: an instant equal to [now] is "In 0 minutes": the zero difference
    is in the minutes branch, with the plural. *)
Theorem formatNextRun_now (now : Z) (text : string) :
  text <> "" -> Date_parse text = Some now ->
  formatNextRun now (Some text) = "In 0 minutes".
Proof.
  intros Hne Hparse.
  rewrite (formatNextRun_parsed now now text Hne Hparse). cbv zeta.
  by rewrite Z.sub_diag.
Qed.

(** X1: a parsable instant 24 hours or more after [now] is rendered by the
    locale formatter. *)
Theorem formatNextRun_absolute (now t : Z) (text : string) :
  text <> "" -> Date_parse text = Some t -> 24 * ms_per_hour <= t - now ->
  formatNextRun now (Some text) = toLocaleString_en_US t.
Proof.
  intros Hne Hparse Hfar.
  rewrite (formatNextRun_parsed now t text Hne Hparse). cbv zeta.
  unfold ms_per_hour in *.
  assert (24 <= (t - now) / (1000 * 60 * 60)) by (apply Z.div_le_lower_bound; lia).
  assert ((t - now <? 0) = false) as -> by lia.
  assert (((t - now) / (1000 * 60 * 60) <? 1) = false) as -> by lia.
  by assert (((t - now) / (1000 * 60 * 60) <? 24) = false) as -> by lia.
Qed.

End FormatNextRun.

Lemma formatNextRun_unparsable_witness :
  Home.formatNextRun (H := Sample.platform) Sample.sample_instant (Some "not-a-date") = "Invalid Date".
Proof.
  apply (formatNextRun_unparsable (H := Sample.platform) Sample.sample_instant "not-a-date");
    first [discriminate | reflexivity].
Defined.

Lemma formatNextRun_minutes_hours_witness :
  Home.formatNextRun (H := Sample.platform) (Sample.sample_instant - 30 * 60000) (Some Sample.sample_iso)
  = "In 30 minutes" /\
  Home.formatNextRun (H := Sample.platform) (Sample.sample_instant - 60000) (Some Sample.sample_iso)
  = "In 1 minute" /\
  Home.formatNextRun (H := Sample.platform) (Sample.sample_instant - 5 * 3600000 - 59 * 60000) (Some Sample.sample_iso)
  = "In 5 hours" /\
  Home.formatNextRun (H := Sample.platform) (Sample.sample_instant - 3600000) (Some Sample.sample_iso)
  = "In 1 hour".
Proof.
  split; [| split; [| split]].
  - refine (proj1 (formatNextRun_minutes_hours (H := Sample.platform)
              (Sample.sample_instant - 30 * 60000) Sample.sample_instant Sample.sample_iso _ _ _) _);
      [discriminate | reflexivity | vm_compute; discriminate | reflexivity].
  - refine (proj1 (formatNextRun_minutes_hours (H := Sample.platform)
              (Sample.sample_instant - 60000) Sample.sample_instant Sample.sample_iso _ _ _) _);
      [discriminate | reflexivity | vm_compute; discriminate | reflexivity].
  - refine (proj2 (formatNextRun_minutes_hours (H := Sample.platform)
              (Sample.sample_instant - 5 * 3600000 - 59 * 60000) Sample.sample_instant Sample.sample_iso _ _ _) _);
      [discriminate | reflexivity | vm_compute; discriminate
      | split; vm_compute; [discriminate | reflexivity]].
  - refine (proj2 (formatNextRun_minutes_hours (H := Sample.platform)
              (Sample.sample_instant - 3600000) Sample.sample_instant Sample.sample_iso _ _ _) _);
      [discriminate | reflexivity | vm_compute; discriminate
      | split; vm_compute; [discriminate | reflexivity]].
Defined.

Lemma formatNextRun_past_due_witness :
  Home.formatNextRun (H := Sample.platform) (Sample.sample_instant + 1000) (Some Sample.sample_iso)
  = "Past due".
Proof.
  apply (formatNextRun_past_due (H := Sample.platform) (Sample.sample_instant + 1000) Sample.sample_instant);
    first [discriminate | reflexivity].
Defined.

Lemma formatNextRun_absolute_witness :
  Home.formatNextRun (H := Sample.platform) (Sample.sample_instant - 24 * 3600000)
    (Some Sample.sample_iso)
  = "Mar 5, 10:00 AM".
Proof.
  apply (formatNextRun_absolute (H := Sample.platform)
           (Sample.sample_instant - 24 * 3600000) Sample.sample_instant Sample.sample_iso);
    first [discriminate | reflexivity | vm_compute; discriminate].
Defined.

Lemma formatNextRun_now_witness :
  Home.formatNextRun (H := Sample.platform) Sample.sample_instant (Some Sample.sample_iso) = "In 0 minutes".
Proof.
  apply (formatNextRun_now (H := Sample.platform) Sample.sample_instant Sample.sample_iso);
    first [discriminate | reflexivity].
Defined.

(** ** The settings modal *)
Section Settings.
Import JS SettingsModal.
Context `{Platform}.

(** The effect, run to its end: nothing changes unless the store holds a
    value, and then each cell is set from its own field. *)
Lemma loadSettings_exec (w : world state) :
  exec (loadSettings true) w =
    match stored_settings (localStorage w) with
    | None => w
    | Some parsed =>
        let st := component w in
        World {| slackChannel := or_else (field parsed "slackChannel") (VStr "");
                 deliveryTime := or_else (field parsed "deliveryTime") (VStr "10:00");
                 timezone := or_else (field parsed "timezone") (VStr "America/New_York");
                 categories := or_else (field parsed "categories") (categories st);
                 statusMessage := statusMessage st |}
              (localStorage w)
    end.
Proof.
  destruct w as [st ls].
  unfold exec, loadSettings, stored_settings, getItem, gets, mbind, M_bind. cbn.
  destruct (ls !! settings_key) as [text |]; [| done].
  destruct (String.eqb text ""); [done |].
  unfold try_catch, mbind, M_bind, lift, parse.
  destruct (JSON_parse text) as [parsed |]; [| done].
  unfold get. destruct (nullish parsed); done.
Qed.


(** C7: once a well-formed settings record has been saved, loading it,
    whatever the cells hold by then, gives that record back.  The browser
    facts used: [JSON.parse] reads back what [JSON.stringify] wrote, and the
    empty text is not JSON. *)
Theorem save_then_load (s : Settings) (w : world state) :
  well_formed s ->
  settings (component w) = encode s ->
  JSON_parse (JSON_stringify (encode s)) = Some (encode s) ->
  JSON_parse "" = None ->
  let saved := exec handleSave w in
  settings (component saved) = encode s /\
  forall st : state,
    settings (component (exec (loadSettings true) (World st (localStorage saved)))) = encode s.
Proof.
  intros [Htime Hzone] Hs Hround Hempty. cbv zeta.
  destruct w as [st0 ls]. cbn [component] in Hs.
  assert (localStorage (exec handleSave (World st0 ls))
          = <[settings_key := JSON_stringify (encode s)]> ls) as Hstore.
  { unfold exec, handleSave, mbind, M_bind, gets, setItem, setStatusMessage, update, modify.
    cbn [snd component localStorage]. by rewrite Hs. }
  split; [done |].
  intros st. rewrite loadSettings_exec. cbn [localStorage component].
  rewrite Hstore. unfold stored_settings. rewrite lookup_insert_eq.
  destruct (String.eqb_spec (JSON_stringify (encode s)) "") as [Heq | _].
  { rewrite Heq in Hround. congruence. }
  rewrite Hround. clear Hs Hround Hstore.
  destruct s as [channel time zone cats]. cbn [s_deliveryTime s_timezone] in Htime, Hzone.
  destruct time as [| c time]; [discriminate Htime |].
  destruct zone as [| c' zone]; [done |].
  by destruct channel.
Qed.

End Settings.



Lemma save_then_load_witness :
  let w := JS.World (SettingsModal.State (JS.VStr "C01234567890") (JS.VStr "08:30")
                       (JS.VStr "America/Chicago")
                       (SettingsModal.encode_categories
                          (SettingsModal.s_categories Sample.saved_settings)) "")
                    (∅ : gmap string string) in
  let saved := JS.exec (SettingsModal.handleSave (H := Sample.platform)) w in
  SettingsModal.settings
    (JS.component
       (JS.exec (SettingsModal.loadSettings (H := Sample.platform) true)
          (JS.World SettingsModal.initial (JS.localStorage saved))))
  = SettingsModal.encode Sample.saved_settings.
Proof.
  cbv zeta.
  refine (proj2 (save_then_load (H := Sample.platform) Sample.saved_settings _ _ _ _ _)
            SettingsModal.initial).
  - split; [reflexivity | discriminate].
  - reflexivity.
  - vm_compute. reflexivity.
  - reflexivity.
Defined.

(** ** The digest history *)
Section History.
Import JS Home.
Context `{Platform}.

(** One call: it throws exactly when [newItem] does (a null or undefined
    digest), before any effect; otherwise the new entry is put in front, the
    list is cut to 20 and written to the store. *)
Lemma saveToHistory_run (now : readings) (digestData : value) (w : world state) :
  saveToHistory now digestData w =
    match newItem now digestData with
    | Normal item =>
        let st := component w in
        let updated := take 20 (item :: history st) in
        (Normal tt,
         World (State (loading st) (statusMessage st) (digest st) updated)
               (<[history_key := JSON_stringify (VArr updated)]> (localStorage w)))
    | Abrupt e => (Abrupt e, w)
    end.
Proof.
  unfold saveToHistory, mbind, M_bind, lift.
  by destruct (newItem now digestData).
Qed.

Lemma saveToHistory_normal (now : readings) (digestData : value) (w w' : world state) :
  saveToHistory now digestData w = (Normal tt, w') ->
  exists item,
    newItem now digestData = Normal item /\
    history (component w') = take 20 (item :: history (component w)) /\
    localStorage w' !! history_key = Some (JSON_stringify (VArr (history (component w')))).
Proof.
  rewrite saveToHistory_run.
  destruct (newItem now digestData) as [item | e]; [| done].
  cbv zeta. intros [= <-]. exists item. cbn [component history localStorage].
  by rewrite lookup_insert_eq.
Qed.

Lemma take_cons_take {A} (n : nat) (x : A) (l : list A) :
  take n (x :: take n l) = take n (x :: l).
Proof.
  destruct n as [| n]; [done |]. cbn. f_equal.
  rewrite take_take. f_equal. lia.
Qed.

Lemma saveAll_snoc (calls : list (readings * value)) (last : readings * value)
    (w w' : world state) :
  saveAll (calls ++ [last]) w = (Normal tt, w') ->
  exists w1, saveAll calls w = (Normal tt, w1) /\ saveToHistory last.1 last.2 w1 = (Normal tt, w').
Proof.
  revert w. induction calls as [| [now d] calls IH]; intros w; cbn [saveAll app].
  - destruct last as [now d]. unfold mbind, M_bind.
    destruct (saveToHistory now d w) as [[[] | e] w1] eqn:Hcall; [| done].
    intros [= <-]. by exists w.
  - unfold mbind, M_bind.
    destruct (saveToHistory now d w) as [[[] | e] w1]; [| done].
    apply IH.
Qed.

Lemma saveAll_history (calls : list (readings * value)) (w w' : world state) :
  saveAll calls w = (Normal tt, w') ->
  exists items,
    created calls items /\
    take 20 (history (component w')) = take 20 (rev items ++ history (component w)).
Proof.
  revert w'. induction calls as [| last calls IH] using rev_ind; intros w'.
  - intros [= <-]. exists []. split; [constructor | done].
  - intros Hrun. apply saveAll_snoc in Hrun as (w1 & Hrun & Hlast).
    destruct (IH _ Hrun) as (items & Hitems & Hhist).
    apply saveToHistory_normal in Hlast as (item & Hitem & -> & _).
    exists (items ++ [item])%list. split.
    + apply Forall2_app; [done |]. by constructor.
    + rewrite take_take, Nat.min_id, rev_app_distr. cbn [rev app].
      by rewrite <- take_cons_take, Hhist, take_cons_take.
Qed.

(** C1: after a sequence of successful calls, the history in the cell and in
    the store is the created entries, newest first, in front of what the
    cell held before, cut to its first 20: the entry of the most recent call
    is first, there are at most 20 entries, and exactly 20 after 25 calls. *)
Theorem saveToHistory_keeps_newest_20 (calls : list (readings * value))
    (last : readings * value) (w w' : world state) :
  saveAll (calls ++ [last]) w = (Normal tt, w') ->
  exists items item,
    created calls items /\
    newItem last.1 last.2 = Normal item /\
    history (component w') = take 20 (item :: rev items ++ history (component w)) /\
    head (history (component w')) = Some item /\
    length (history (component w'))
      = (20 `min` (S (length calls) + length (history (component w))))%nat /\
    (length (history (component w')) <= 20)%nat /\
    (length calls = 24%nat -> length (history (component w')) = 20%nat) /\
    localStorage w' !! history_key = Some (JSON_stringify (VArr (history (component w')))).
Proof.
  intros Hrun. apply saveAll_snoc in Hrun as (w1 & Hrun & Hlast).
  destruct (saveAll_history _ _ _ Hrun) as (items & Hitems & Hhist).
  apply saveToHistory_normal in Hlast as (item & Hitem & Hnew & Hstore).
  rewrite Hstore, Hnew. clear Hstore Hnew.
  exists items, item.
  assert (take 20 (item :: history (component w1))
          = take 20 (item :: rev items ++ history (component w))) as Heq.
  { by rewrite <- take_cons_take, Hhist, take_cons_take. }
  assert (length items = length calls) as Hlen.
  { symmetry. by eapply Forall2_length. }
  assert (length (take 20 (item :: history (component w1)))
          = (20 `min` (S (length calls) + length (history (component w))))%nat) as Hsize.
  { rewrite Heq, length_take. cbn [length]. rewrite length_app, length_rev. lia. }
  repeat split; try done.
  - rewrite Hsize. lia.
  - intros H24. rewrite Hsize. lia.
Qed.

(** X2: the history a call of [saveToHistory] wrote to the store is what
    [loadHistory] puts in the cell on the next mount, given that
    [JSON.parse] reads back what [JSON.stringify] wrote and that the empty
    text is not JSON. *)
Theorem loadHistory_restores_saved (now : readings) (digestData : value)
    (w w' : world state) (st : state) :
  saveToHistory now digestData w = (Normal tt, w') ->
  JSON_parse (JSON_stringify (VArr (history (component w'))))
  = Some (VArr (history (component w'))) ->
  JSON_parse "" = None ->
  history (component (exec loadHistory (World st (localStorage w'))))
  = history (component w').
Proof.
  intros Hsave Hround Hempty.
  apply saveToHistory_normal in Hsave as (item & _ & _ & Hstore).
  unfold exec, loadHistory, getItem, gets, mbind, M_bind.
  cbn [localStorage fst snd]. rewrite Hstore.
  destruct (String.eqb_spec (JSON_stringify (VArr (history (component w')))) "") as [Heq | _].
  { rewrite Heq in Hround. congruence. }
  unfold try_catch, mbind, M_bind, lift, parse. by rewrite Hround.
Qed.

(** C9 (amended): the id of an entry is the decimal text of the clock
    reading taken for it, so two created entries have the same id exactly
    when those two readings are the same millisecond. *)
Theorem created_ids_differ_iff_readings_differ (now1 now2 : readings)
    (digest1 digest2 item1 item2 : value) :
  newItem now1 digest1 = Normal item1 ->
  newItem now2 digest2 = Normal item2 ->
  (field item1 "id" = field item2 "id" <-> id_now now1 = id_now now2) /\
  (id_now now1 <> id_now now2 -> field item1 "id" <> field item2 "id").
Proof.
  unfold newItem, get. intros H1 H2.
  destruct (nullish digest1); [done |]. destruct (nullish digest2); [done |].
  cbn in H1, H2. injection H1 as <-. injection H2 as <-.
  cbn [field assoc String.eqb Ascii.eqb Bool.eqb].
  assert (VStr (pretty (id_now now1)) = VStr (pretty (id_now now2))
          <-> id_now now1 = id_now now2) as Hiff.
  { split; [| by intros ->]. intros [= Heq]. by apply (inj pretty). }
  split; [done |]. intros Hne Heq. by apply Hne, Hiff.
Qed.

End History.

Lemma saveToHistory_keeps_newest_20_witness :
  length (Home.history (JS.component
            (JS.exec (Home.saveAll (H := Sample.platform) (Sample.calls 25))
                     (JS.World Home.initial ∅))))
  = 20%nat.
Proof.
  destruct (saveToHistory_keeps_newest_20 (H := Sample.platform)
              (Sample.calls 24) (Sample.call 24)
              (JS.World Home.initial ∅)
              (JS.exec (Home.saveAll (H := Sample.platform) (Sample.calls 25))
                       (JS.World Home.initial ∅)))
    as (items & item & _ & _ & _ & _ & _ & _ & H25 & _).
  - vm_compute. reflexivity.
  - apply H25. reflexivity.
Defined.

Lemma loadHistory_restores_saved_witness :
  Home.history (JS.component
    (JS.exec (Home.loadHistory (H := Sample.platform))
       (JS.World Home.initial
          (JS.localStorage
             (JS.exec (Home.saveToHistory (H := Sample.platform)
                         (Sample.call 0).1 (Sample.call 0).2)
                      (JS.World Home.initial ∅))))))
  = [Sample.entry 0].
Proof.
  apply (loadHistory_restores_saved (H := Sample.platform)
           (Sample.call 0).1 (Sample.call 0).2 (JS.World Home.initial ∅)
           (JS.exec (Home.saveToHistory (H := Sample.platform)
                       (Sample.call 0).1 (Sample.call 0).2)
                    (JS.World Home.initial ∅))
           Home.initial).
  - vm_compute. reflexivity.
  - vm_compute. reflexivity.
  - reflexivity.
Defined.

Lemma created_ids_differ_iff_readings_differ_witness :
  JS.field (Sample.entry 0) "id" <> JS.field (Sample.entry 1) "id".
Proof.
  apply (created_ids_differ_iff_readings_differ (H := Sample.platform)
           (Sample.call 0).1 (Sample.call 1).1 (Sample.call 0).2 (Sample.call 1).2).
  - reflexivity.
  - reflexivity.
  - discriminate.
Defined.

(** C9, as stated, fails when two calls read the clock in the same
    millisecond (or the clock was set back to it): the two entries differ
    and have the same id. *)
Lemma same_millisecond_same_id :
  let first := (Home.Readings 1709632800000 1709632800000 1709632800000,
                JS.VObj [("digest_date", JS.VStr "2024-03-05"); ("categories", JS.VArr [])]) in
  let second := (Home.Readings 1709632800000 1709632800000 1709632800000,
                 JS.VObj [("digest_date", JS.VStr "2024-03-06"); ("categories", JS.VArr [])]) in
  match Home.history (JS.component
          (JS.exec (Home.saveAll (H := Sample.platform) [first; second])
                   (JS.World Home.initial ∅))) with
  | [newer; older] =>
      newer <> older /\ JS.field newer "id" = JS.field older "id"
  | _ => False
  end.
Proof. vm_compute. split; [discriminate | reflexivity]. Qed.

(** ** [fetchNews] *)
Section FetchNews.
Import JS Home.
Context `{Platform}.

Lemma isArray_truthy (v : value) : isArray (field v "categories") = true -> truthy v = true.
Proof. by destruct v. Qed.

Lemma accepted_fetchDigest (answer : completion value) :
  accepted answer = match fetchDigest answer with inr _ => true | inl _ => false end.
Proof.
  destruct answer as [result | e]; [| done]. unfold accepted, fetchDigest.
  destruct (nullish result) eqn:Hnull.
  { by destruct result. }
  destruct (ToString _) as [text | thrown];
    (destruct (truthy (field result "success")); [| done]); cbn [andb];
    (destruct (isArray (field (payload result) "categories")) eqn:Harr;
     [by rewrite (isArray_truthy _ Harr) | by destruct (truthy (payload result))]).
Qed.

(** The run of [fetchNews] over the counting callees. *)
Lemma fetchNews_counted (answer : completion value) :
  saveToHistory_calls answer
  = match fetchDigest answer with inr _ => 1%nat | inl _ => 0%nat end.
Proof.
  unfold saveToHistory_calls, exec, fetchNews_body, fetchDigest, payload, counting,
    try_finally, try_catch, mbind, M_bind, lift, modify, mret, M_ret, get_opt, get.
  cbn [call_setLoading call_setStatusMessage call_setDigest call_saveToHistory].
  destruct answer as [result | e]; [| done].
  fetch_cases result Hnull Hsuccess Hresp Hpay Hpaynull Harr; fetch_step; done.
Qed.

(** C2 (amended): [fetchNews] calls [saveToHistory] once when the gateway
    reports success and the payload's [categories] is an array, and not at
    all otherwise.  In the first case the digest is shown and one entry is
    put in front of the history, in the cell and in the store.  Otherwise
    the digest, the history and the store are as before, and the message
    is that of the error kind: the invalid response shape for a success
    with a payload that has no [categories] array, a gateway failure for a
    result without success or without a payload and for a thrown error. *)
Theorem fetchNews_saves_once_when_valid (now : readings) (answer : completion value)
    (w : world state) :
  let w' := exec (fetchNews now answer) w in
  saveToHistory_calls answer = (if accepted answer then 1 else 0)%nat /\
  loading (component w') = false /\
  match fetchDigest answer with
  | inr digestData =>
      accepted answer = true /\
      statusMessage (component w') = "✓ News digest fetched successfully" /\
      digest (component w') = digestData /\
      exists item,
        newItem now digestData = Normal item /\
        history (component w') = take 20 (item :: history (component w)) /\
        localStorage w'
        = <[history_key := JSON_stringify (VArr (history (component w')))]> (localStorage w)
  | inl kind =>
      accepted answer = false /\
      statusMessage (component w') = shown kind /\
      digest (component w') = digest (component w) /\
      history (component w') = history (component w) /\
      localStorage w' = localStorage w
  end.
Proof.
  cbv zeta. split.
  { rewrite fetchNews_counted, accepted_fetchDigest. by destruct (fetchDigest answer). }
  rewrite accepted_fetchDigest.
  destruct w as [st ls].
  unfold fetchNews, exec, fetchNews_body, fetchDigest, payload, page_callees,
    try_finally, try_catch, mbind, M_bind, lift, mret, M_ret, get_opt, get.
  cbn [call_setLoading call_setStatusMessage call_setDigest call_saveToHistory].
  destruct answer as [result | e]; [| done].
  fetch_cases result Hnull Hsuccess Hresp Hpay Hpaynull Harr; fetch_step; try done.
  unfold setLoading, setStatusMessage, setDigest, update, modify.
  cbn beta iota zeta delta [fst snd component localStorage loading statusMessage digest history].
  rewrite saveToHistory_run. unfold newItem, get. rewrite Hpaynull.
  cbn beta iota zeta delta [fst snd component localStorage loading statusMessage digest history
                            mbind mret completion_bind completion_ret].
  repeat split. eexists. repeat split.
Qed.

End FetchNews.

(** The failure shown for a reported [error] that is not a text: an object
    with a property [toString] cannot be converted, and the [catch] shows
    that error; a plain object, a number from 1e21 on and an array are shown
    as the conversion prints them. *)
Example fetchNews_failure_texts :
  let shown_for error :=
    Home.statusMessage (JS.component
      (JS.exec (Home.fetchNews (H := Sample.platform) (Sample.call 0).1
                  (JS.Normal (JS.VObj [("success", JS.VBool false); ("error", error)])))
               (JS.World Home.initial ∅))) in
  shown_for (JS.VObj [("toString", JS.VStr "x")])
  = "✗ Error: Cannot convert object to primitive value" /\
  shown_for (JS.VObj [("code", JS.VNum (JS.Int 500))])
  = "✗ Failed to fetch news: [object Object]" /\
  shown_for (JS.VNum (JS.Int (10 ^ 21))) = "✗ Failed to fetch news: 1e+21" /\
  shown_for (JS.VNum (JS.Int 503)) = "✗ Failed to fetch news: 503" /\
  shown_for (JS.VArr [JS.VStr "a"; JS.VNull; JS.VNum (JS.Int 1)])
  = "✗ Failed to fetch news: a,,1" /\
  shown_for (JS.VArr [JS.VObj [("toString", JS.VNull)]])
  = "✗ Error: Cannot convert object to primitive value".
Proof. vm_compute. repeat split. Qed.

(** C2, as stated, fails for a result that reports success and has no
    payload: it has no [categories] array, and the message is the gateway
    failure, not the invalid response shape. *)
Lemma success_without_payload_is_gateway_failure :
  let answer := JS.Normal Sample.success_without_payload in
  let w' := JS.exec (Home.fetchNews (H := Sample.platform) (Sample.call 0).1 answer)
                    (JS.World Home.initial ∅) in
  JS.truthy (JS.field Sample.success_without_payload "success") = true /\
  JS.isArray (JS.field (Home.payload Sample.success_without_payload) "categories") = false /\
  Home.statusMessage (JS.component w') = "✗ Failed to fetch news: Unknown error" /\
  Home.statusMessage (JS.component w') <> "✗ Invalid response format".
Proof. vm_compute. repeat split. discriminate. Qed.

(** ** [cronToHuman] *)
Section Cron.
Import Scheduler.

Example cronToHuman_daily :
  cronToHuman "0 10 * * *" = "Daily at 10:00 AM" /\
  cronToHuman "5 0 * * *" = "Daily at 12:05 AM" /\
  cronToHuman "30 14 * * *" = "Daily at 2:30 PM".
Proof. vm_compute. repeat split. Qed.

Lemma field_count_mismatch (cronExpression : string) :
  length (split_on_space cronExpression) <> 5%nat -> parse_cron cronExpression = None.
Proof.
  unfold parse_cron. intros Hcount.
  destruct (split_on_space cronExpression) as [| f1 [| f2 [| f3 [| f4 [| f5 [| f6 rest]]]]]];
    try done; try (by destruct Hcount).
  all: repeat case_match; done.
Qed.

(** C8: [cronToHuman] is a function from texts to texts, defined on every
    text; on a field count other than five, and on any expression it cannot
    parse, the result is the expression itself. *)
Theorem cronToHuman_unparseable_unchanged (cronExpression : string) :
  length (split_on_space cronExpression) <> 5%nat \/ parse_cron cronExpression = None ->
  cronToHuman cronExpression = cronExpression.
Proof.
  intros [Hcount | Hparse]; unfold cronToHuman.
  - by rewrite (field_count_mismatch _ Hcount).
  - by rewrite Hparse.
Qed.

End Cron.

Lemma cronToHuman_unparseable_unchanged_witness :
  Scheduler.cronToHuman "" = "" /\
  Scheduler.cronToHuman "every day at ten" = "every day at ten" /\
  Scheduler.cronToHuman "61 25 * * *" = "61 25 * * *".
Proof.
  split; [| split].
  - apply cronToHuman_unparseable_unchanged. left. vm_compute. discriminate.
  - apply cronToHuman_unparseable_unchanged. left. vm_compute. discriminate.
  - apply cronToHuman_unparseable_unchanged. right. vm_compute. reflexivity.
Defined.

(** ** The view state of the history list *)

Lemma elem_of_toggled (y x : string) (s : gset string) :
  y ∈ HistoryView.toggled x s <-> (if decide (y = x) then x ∉ s else y ∈ s).
Proof.
  unfold HistoryView.toggled. cbv zeta.
  destruct (decide (x ∈ s)) as [Hin | Hout], (decide (y = x)) as [-> | Hne];
    rewrite ?elem_of_difference, ?elem_of_union, ?elem_of_singleton; tauto.
Qed.

(** Membership goals over [toggled]: unfold it everywhere, split on the
    equalities of names and on membership. *)
Ltac toggled_solver :=
  repeat first
    [ rewrite elem_of_toggled
    | match goal with
      | |- context [decide (?a = ?b)] => destruct (decide (a = b)); subst
      end ];
  repeat match goal with
         | |- context [?a ∈ ?s] =>
             lazymatch goal with
             | _ : a ∈ s |- _ => fail
             | _ : a ∉ s |- _ => fail
             | _ => destruct (decide (a ∈ s))
             end
         end;
  tauto.

Section HistoryViewFacts.
Import JS HistoryView.

Lemma toggled_involutive (x : string) (s : gset string) : toggled x (toggled x s) = s.
Proof. apply set_eq. intros y. toggled_solver. Qed.

Lemma toggled_comm (x y : string) (s : gset string) :
  toggled x (toggled y s) = toggled y (toggled x s).
Proof. apply set_eq. intros z. toggled_solver. Qed.

(** X4: expanding and collapsing.  [toggleHistoryItem id] flips whether
    [id] is expanded and leaves every other id, and the category filters, as
    they were; done twice it restores the state; toggles of two ids can be
    done in either order. *)
Theorem toggleHistoryItem_flips_one (id other : string) (st : state) :
  isExpanded (toggleHistoryItem id st) other
  = (if decide (other = id) then negb (isExpanded st id) else isExpanded st other) /\
  categoryFilters (toggleHistoryItem id st) = categoryFilters st /\
  toggleHistoryItem id (toggleHistoryItem id st) = st /\
  toggleHistoryItem id (toggleHistoryItem other st)
  = toggleHistoryItem other (toggleHistoryItem id st).
Proof.
  destruct st as [expanded filters].
  unfold isExpanded, toggleHistoryItem. cbn [expandedHistory categoryFilters].
  split; [| split; [done |]; split].
  - case_decide.
    + subst. rewrite <- bool_decide_not. apply bool_decide_ext.
      rewrite elem_of_toggled. by case_decide.
    + apply bool_decide_ext. rewrite elem_of_toggled. by case_decide.
  - by rewrite toggled_involutive.
  - by rewrite toggled_comm.
Qed.

Lemma Forall_bool_filter {A} (P : A -> Prop) (f : A -> bool) (l : list A) :
  Forall P l -> Forall P (List.filter f l).
Proof.
  induction 1 as [| x l Hx _ IH]; cbn [List.filter]; [done |].
  destruct (f x); [by constructor | done].
Qed.

Lemma bool_filter_idem {A} (f : A -> bool) (l : list A) :
  List.filter f (List.filter f l) = List.filter f l.
Proof.
  induction l as [| x l IH]; [done |]. cbn [List.filter].
  destruct (f x) eqn:Hx; [| done]. cbn [List.filter]. by rewrite Hx, IH.
Qed.

Lemma filter_categories_normal (filters : gset string) (items : list value) :
  Forall (fun c => nullish c = false) items ->
  filter_categories filters items
  = Normal (List.filter (fun c => has filters (field c "category_name")) items).
Proof.
  induction 1 as [| c items Hc _ IH]; [done |].
  cbn [filter_categories List.filter]. unfold get. rewrite Hc, IH.
  cbn [mbind completion_bind mret completion_ret]. by destruct (has filters _).
Qed.

Lemma filter_categories_inv (filters : gset string) (items kept : list value) :
  filter_categories filters items = Normal kept ->
  Forall (fun c => nullish c = false) items.
Proof.
  revert kept. induction items as [| c items IH]; intros kept; [constructor |].
  cbn [filter_categories]. unfold get.
  destruct (nullish c) eqn:Hc; [done |]. cbn [mbind completion_bind].
  destruct (filter_categories filters items) as [kept' | e] eqn:Hrest; [| done].
  intros _. constructor; [done |]. by eapply IH.
Qed.

(** X5: the category filter.  Of an array without null elements,
    [getFilteredCategories] keeps, in their order, exactly the elements whose
    [category_name] is a selected name; of anything that is not an array it
    gives the empty list. *)
Theorem getFilteredCategories_keeps_selected (st : state) (items : list value)
    (other : value) :
  Forall (fun c => nullish c = false) items ->
  getFilteredCategories st (VArr items) = Normal (List.filter (selected st) items) /\
  (isArray other = false -> getFilteredCategories st other = Normal []).
Proof.
  intros Hitems. split.
  - by apply filter_categories_normal.
  - by destruct other.
Qed.

(** X6: a null or undefined element makes [getFilteredCategories] throw the
    [TypeError] of reading [category_name] from it, whatever the filters
    are. *)
Theorem getFilteredCategories_throws_on_null (st : state) (before after : list value)
    (c : value) :
  Forall (fun c => nullish c = false) before ->
  nullish c = true ->
  getFilteredCategories st (VArr (before ++ c :: after))
  = Abrupt (TypeError c "category_name").
Proof.
  intros Hbefore Hc. cbn [getFilteredCategories].
  induction Hbefore as [| b before Hb _ IH]; cbn [app filter_categories]; unfold get.
  - by rewrite Hc.
  - rewrite Hb. cbn [mbind completion_bind]. by rewrite IH.
Qed.

(** X7: [toggleCategoryFilter category] changes what is shown only for the
    categories of that name, which it hides if they were shown and shows if
    they were hidden; done twice it restores the state; the expanded entries
    are untouched. *)
Theorem toggleCategoryFilter_flips_one_name (category : string) (st : state)
    (items : list value) :
  Forall (fun c => nullish c = false) items ->
  getFilteredCategories (toggleCategoryFilter category st) (VArr items)
  = Normal (List.filter
              (fun cat => if named category cat then negb (selected st cat)
                          else selected st cat) items) /\
  toggleCategoryFilter category (toggleCategoryFilter category st) = st /\
  expandedHistory (toggleCategoryFilter category st) = expandedHistory st.
Proof.
  intros Hitems. split; [| split; [| done]].
  - cbn [getFilteredCategories]. rewrite (filter_categories_normal _ _ Hitems).
    f_equal. apply filter_ext. intros cat.
    unfold selected, named, has, toggleCategoryFilter. cbn [categoryFilters].
    destruct (field cat "category_name") as [| | | | name | |]; try done.
    destruct (String.eqb_spec name category) as [-> | Hne].
    + rewrite <- bool_decide_not. apply bool_decide_ext. toggled_solver.
    + apply bool_decide_ext. toggled_solver.
  - destruct st as [expanded filters]. unfold toggleCategoryFilter.
    cbn [expandedHistory categoryFilters]. by rewrite toggled_involutive.
Qed.

(** X8: filtering is idempotent: what [getFilteredCategories] returned, it
    returns unchanged when applied to it again. *)
Theorem getFilteredCategories_idempotent (st : state) (categories : value)
    (kept : list value) :
  getFilteredCategories st categories = Normal kept ->
  getFilteredCategories st (VArr kept) = Normal kept.
Proof.
  destruct categories as [| | | | | items |]; cbn [getFilteredCategories];
    try (by intros [= <-]).
  intros Hrun. pose proof (filter_categories_inv _ _ _ Hrun) as Hitems.
  rewrite (filter_categories_normal _ _ Hitems) in Hrun. injection Hrun as <-.
  rewrite (filter_categories_normal _ _ (Forall_bool_filter _ _ _ Hitems)).
  by rewrite bool_filter_idem.
Qed.

End HistoryViewFacts.

(** ** The schedule panel *)

(** Runs a computation whose branches are decided by the truthiness of
    values: case analysis on each test that is stuck, rewriting with what is
    known of it. *)
Ltac schedule_cases :=
  repeat first
    [ progress cbn beta iota zeta delta
        [fst snd andb default JS.truthy JS.nullish JS.isArray ScheduleControl.schedule
         ScheduleControl.scheduleLoading ScheduleControl.executionLogs ScheduleControl.sent]
    | match goal with
      | Heq : ?t = _ |- context [?t] => rewrite Heq
      end
    | match goal with
      | |- context [if JS.truthy ?v then _ else _] => destruct (JS.truthy v) eqn:?
      | |- context [match ?v with JS.VArr _ => _ | _ => _ end] => destruct v eqn:?
      end ].

Section ScheduleFacts.
Import JS ScheduleControl.

Lemma loadScheduleStatus_run (g : gateway) (scheduleData logsData : value)
    (st : state) :
  g (GetSchedule SCHEDULE_ID) = Normal scheduleData ->
  g (GetScheduleLogs SCHEDULE_ID 10) = Normal logsData ->
  nullish logsData = false ->
  loadScheduleStatus g st
  = (Normal tt,
     {| schedule := default (schedule st) (loaded_schedule scheduleData);
        scheduleLoading := false;
        executionLogs := default (executionLogs st) (loaded_logs logsData);
        sent := sent st ++ [GetSchedule SCHEDULE_ID; GetScheduleLogs SCHEDULE_ID 10] |}).
Proof.
  intros Hschedule Hlogs Hnull. destruct st as [current loading logs requests].
  assert (nullish scheduleData = true -> field scheduleData "success" = VUndefined) as Hsd
    by (by destruct scheduleData).
  unfold loadScheduleStatus, loaded_schedule, loaded_logs, await, setScheduleLoading,
    setSchedule, setExecutionLogs, modify, lift, mbind, M_bind, mret, M_ret, get_opt, get.
  cbn [schedule scheduleLoading executionLogs sent].
  rewrite Hschedule, Hlogs, Hnull.
  destruct (nullish scheduleData) eqn:Hsdnull; [rewrite (Hsd eq_refl) |]; clear Hsd;
    schedule_cases; by rewrite <- app_assoc.
Qed.

(** X10: a refresh that the gateway answers.  When both calls return (the
    logs result not being null or undefined), [loadScheduleStatus] sends
    exactly the schedule request and then the request for 10 log entries,
    ends with [scheduleLoading] false, replaces the schedule only by the
    schedule of a successful result that has one, and the execution logs
    only by the [executions] array of a successful result: a failed refresh
    clears nothing. *)
Theorem loadScheduleStatus_answered (g : gateway) (scheduleData logsData : value)
    (st st' : state) (r : completion unit) :
  g (GetSchedule SCHEDULE_ID) = Normal scheduleData ->
  g (GetScheduleLogs SCHEDULE_ID 10) = Normal logsData ->
  nullish logsData = false ->
  loadScheduleStatus g st = (r, st') ->
  r = Normal tt /\
  scheduleLoading st' = false /\
  schedule st' = default (schedule st) (loaded_schedule scheduleData) /\
  executionLogs st' = default (executionLogs st) (loaded_logs logsData) /\
  sent st' = (sent st ++ [GetSchedule SCHEDULE_ID; GetScheduleLogs SCHEDULE_ID 10])%list.
Proof.
  intros Hschedule Hlogs Hnull.
  rewrite (loadScheduleStatus_run g _ _ st Hschedule Hlogs Hnull).
  by intros [= <- <-].
Qed.

(** X11: a refresh that throws.  When either call is rejected, or the logs
    result is null or undefined, [loadScheduleStatus] throws that error
    with [scheduleLoading] left true and the execution logs as they were:
    nothing resets the flag. *)
Theorem loadScheduleStatus_error_leaves_loading (g : gateway) (e : thrown) (st : state) :
  refresh_error g = Some e ->
  exists st',
    loadScheduleStatus g st = (Abrupt e, st') /\
    scheduleLoading st' = true /\
    executionLogs st' = executionLogs st.
Proof.
  unfold refresh_error. intros Herror. destruct st as [current loading logs requests].
  unfold loadScheduleStatus, await, setScheduleLoading, setSchedule, setExecutionLogs,
    modify, lift, mbind, M_bind, mret, M_ret, get_opt, get.
  cbn [schedule scheduleLoading executionLogs sent].
  destruct (g (GetSchedule SCHEDULE_ID)) as [scheduleData | e1] eqn:Hschedule.
  2:{ injection Herror as <-. eexists. by repeat split. }
  assert (nullish scheduleData = true -> field scheduleData "success" = VUndefined) as Hsd
    by (by destruct scheduleData).
  destruct (g (GetScheduleLogs SCHEDULE_ID 10)) as [logsData | e2] eqn:Hlogs.
  - destruct (nullish logsData) eqn:Hnull; [| done]. injection Herror as <-.
    destruct (nullish scheduleData) eqn:Hsdnull; [rewrite ?(Hsd eq_refl) |]; clear Hsd;
      schedule_cases; eexists; by repeat split.
  - injection Herror as <-.
    destruct (nullish scheduleData) eqn:Hsdnull; [rewrite ?(Hsd eq_refl) |]; clear Hsd;
      schedule_cases; eexists; by repeat split.
Qed.

(** What [toggleSchedule] does once it has a schedule and the answer to its
    request. *)
Lemma toggleSchedule_run (g : gateway) (st : state) :
  truthy (schedule st) = true ->
  toggleSchedule g st =
    let asked := State (schedule st) true (executionLogs st)
                       (sent st ++ [toggle_request (schedule st)]) in
    match g (toggle_request (schedule st)) with
    | Abrupt e => (Abrupt e, asked)
    | Normal result =>
        if nullish result then (Abrupt (TypeError result "success"), asked)
        else if truthy (field result "success") then
          match loadScheduleStatus g asked with
          | (Normal _, st') =>
              (Normal tt, State (schedule st') false (executionLogs st') (sent st'))
          | (Abrupt e, st') => (Abrupt e, st')
          end
        else (Normal tt, State (schedule st) false (executionLogs st) (sent asked))
    end.
Proof.
  intros Hcurrent. destruct st as [current loading logs requests].
  cbn [schedule] in Hcurrent.
  assert (nullish current = false) as Hnull by (by destruct current).
  unfold toggleSchedule, toggle_request, gets, mbind at 1, M_bind at 1.
  cbn [schedule scheduleLoading executionLogs sent]. rewrite Hcurrent. cbn [negb].
  unfold await, setScheduleLoading, modify, lift, mbind, M_bind, mret, M_ret, get.
  cbn [schedule scheduleLoading executionLogs sent]. rewrite Hnull.
  destruct (truthy (field current "is_active"));
    cbn [schedule scheduleLoading executionLogs sent].
  - destruct (g (PauseSchedule SCHEDULE_ID)) as [result | e]; [| done].
    destruct (nullish result); [done |].
    destruct (truthy (field result "success")); [| done].
    by destruct (loadScheduleStatus g _) as [[[] | e] st'].
  - destruct (g (ResumeSchedule SCHEDULE_ID)) as [result | e]; [| done].
    destruct (nullish result); [done |].
    destruct (truthy (field result "success")); [| done].
    by destruct (loadScheduleStatus g _) as [[[] | e] st'].
Qed.

(** X12: a toggle that is not confirmed.  Without a schedule
    [toggleSchedule] does nothing and sends nothing.  With one, it sends one
    request, to pause if the schedule it sees is active and to resume
    otherwise; when the result does not report success, nothing else is
    sent, the schedule and the logs are as before and [scheduleLoading]
    ends false; when the call is rejected the error propagates with
    [scheduleLoading] left true. *)
Theorem toggleSchedule_unconfirmed (g : gateway) (st : state) :
  (truthy (schedule st) = false -> toggleSchedule g st = (Normal tt, st)) /\
  (truthy (schedule st) = true ->
   forall result : value,
     g (toggle_request (schedule st)) = Normal result ->
     nullish result = false ->
     truthy (field result "success") = false ->
     toggleSchedule g st
     = (Normal tt,
        State (schedule st) false (executionLogs st)
              (sent st ++ [toggle_request (schedule st)]))) /\
  (truthy (schedule st) = true ->
   forall e : thrown,
     g (toggle_request (schedule st)) = Abrupt e ->
     toggleSchedule g st
     = (Abrupt e,
        State (schedule st) true (executionLogs st)
              (sent st ++ [toggle_request (schedule st)]))).
Proof.
  split; [| split].
  - intros Hnone. unfold toggleSchedule, gets, mbind, M_bind. by rewrite Hnone.
  - intros Hcurrent result Hresult Hnull Hsuccess.
    rewrite (toggleSchedule_run g st Hcurrent). cbv zeta.
    by rewrite Hresult, Hnull, Hsuccess.
  - intros Hcurrent e Hresult.
    rewrite (toggleSchedule_run g st Hcurrent). cbv zeta. by rewrite Hresult.
Qed.

(** X13: a confirmed toggle refreshes.  When the pause or resume reports
    success and the gateway answers the refresh, [toggleSchedule] has sent
    three requests in this order: the pause or resume, the schedule, the 10
    log entries; the cells are then what the refresh loaded, and
    [scheduleLoading] is false. *)
Theorem toggleSchedule_confirmed (g : gateway) (result scheduleData logsData : value)
    (st : state) :
  truthy (schedule st) = true ->
  g (toggle_request (schedule st)) = Normal result ->
  truthy (field result "success") = true ->
  g (GetSchedule SCHEDULE_ID) = Normal scheduleData ->
  g (GetScheduleLogs SCHEDULE_ID 10) = Normal logsData ->
  nullish logsData = false ->
  toggleSchedule g st
  = (Normal tt,
     {| schedule := default (schedule st) (loaded_schedule scheduleData);
        scheduleLoading := false;
        executionLogs := default (executionLogs st) (loaded_logs logsData);
        sent := sent st ++ [toggle_request (schedule st); GetSchedule SCHEDULE_ID;
                            GetScheduleLogs SCHEDULE_ID 10] |}).
Proof.
  intros Hcurrent Hresult Hsuccess Hschedule Hlogs Hnull.
  assert (nullish result = false) as Hrnull by (by destruct result).
  rewrite (toggleSchedule_run g st Hcurrent). cbv zeta.
  rewrite Hresult, Hrnull, Hsuccess.
  rewrite (loadScheduleStatus_run g _ _ _ Hschedule Hlogs Hnull).
  cbn [schedule scheduleLoading executionLogs sent]. by rewrite <- app_assoc.
Qed.

End ScheduleFacts.

(** ** The two stored records together *)
Section Stores.
Import JS.
Context `{Platform}.

(** [loadHistory], run to its end. *)
Lemma loadHistory_exec (w : world Home.state) :
  exec Home.loadHistory w =
    match HistoryStore.stored_history (localStorage w) with
    | Some items =>
        let st := component w in
        World (Home.State (Home.loading st) (Home.statusMessage st) (Home.digest st) items)
              (localStorage w)
    | None => w
    end.
Proof.
  destruct w as [st ls].
  unfold exec, Home.loadHistory, HistoryStore.stored_history, getItem, gets, mbind, M_bind.
  cbn [localStorage component fst snd].
  destruct (ls !! Home.history_key) as [text |]; [| done].
  destruct (String.eqb text ""); [done |].
  unfold try_catch, mbind, M_bind, lift, parse.
  destruct (JSON_parse text) as [parsed |]; [| done].
  by destruct parsed.
Qed.

(** X14: [loadHistory] writes nothing and touches no cell but the history.
    It leaves the history as it is when the stored item is missing, empty,
    not JSON or not an array, and otherwise replaces it by the stored array
    as it is: the elements are not checked and the list is not cut, so a
    stored array of more than 20 entries is loaded whole. *)
Theorem loadHistory_takes_stored_array (w : world Home.state) :
  let w' := exec Home.loadHistory w in
  localStorage w' = localStorage w /\
  Home.loading (component w') = Home.loading (component w) /\
  Home.statusMessage (component w') = Home.statusMessage (component w) /\
  Home.digest (component w') = Home.digest (component w) /\
  Home.history (component w')
  = default (Home.history (component w)) (HistoryStore.stored_history (localStorage w)).
Proof.
  cbv zeta. rewrite loadHistory_exec.
  by destruct (HistoryStore.stored_history (localStorage w)).
Qed.

(** X15: the first save after a load restores the bound: whatever the
    length of the stored array that [loadHistory] took, a successful
    [saveToHistory] after it leaves the new entry followed by the first 19
    stored ones. *)
Theorem save_after_load_caps (now : Home.readings) (digestData item : value)
    (items : list value) (w : world Home.state) :
  HistoryStore.stored_history (localStorage w) = Some items ->
  Home.newItem now digestData = Normal item ->
  let w' := exec (Home.loadHistory ;; Home.saveToHistory now digestData) w in
  Home.history (component (exec Home.loadHistory w)) = items /\
  Home.history (component w') = item :: take 19 items /\
  (length (Home.history (component w')) <= 20)%nat.
Proof.
  intros Hstored Hitem. cbv zeta.
  assert (exec (Home.loadHistory ;; Home.saveToHistory now digestData) w
          = exec (Home.saveToHistory now digestData) (exec Home.loadHistory w)) as ->.
  { unfold exec, mbind, M_bind.
    assert (exists w1, Home.loadHistory w = (Normal tt, w1)) as [w1 Hload].
    { unfold Home.loadHistory, getItem, gets, mbind, M_bind, try_catch, lift, parse.
      cbn [fst snd]. repeat case_match; simplify_eq; eauto. }
    by rewrite Hload. }
  rewrite loadHistory_exec, Hstored. cbv zeta.
  split; [done |].
  unfold exec. rewrite saveToHistory_run, Hitem. cbn [snd component Home.history].
  split; [done |]. cbn [length]. rewrite length_take. lia.
Qed.

(** X16: the two records do not interfere.  Saving the settings leaves the
    stored history item as it is, so that [loadHistory] loads the same
    history after it as before; saving a digest leaves the stored settings
    item as it is, so that the settings modal loads the same settings. *)
Theorem stores_do_not_interfere (modal : SettingsModal.state) (home : Home.state)
    (ls : gmap string string) (now : Home.readings) (digestData : value) :
  let after_settings := localStorage (exec SettingsModal.handleSave (World modal ls)) in
  let after_digest := localStorage (exec (Home.saveToHistory now digestData) (World home ls)) in
  after_settings !! Home.history_key = ls !! Home.history_key /\
  component (exec Home.loadHistory (World home after_settings))
  = component (exec Home.loadHistory (World home ls)) /\
  after_digest !! SettingsModal.settings_key = ls !! SettingsModal.settings_key /\
  component (exec (SettingsModal.loadSettings true) (World modal after_digest))
  = component (exec (SettingsModal.loadSettings true) (World modal ls)).
Proof.
  cbv zeta.
  assert (localStorage (exec SettingsModal.handleSave (World modal ls)) !! Home.history_key
          = ls !! Home.history_key) as Hhistory.
  { unfold exec, SettingsModal.handleSave, mbind, M_bind, gets, setItem,
      SettingsModal.setStatusMessage, update, modify.
    cbn [snd fst component localStorage]. by rewrite lookup_insert_ne. }
  assert (localStorage (exec (Home.saveToHistory now digestData) (World home ls))
            !! SettingsModal.settings_key
          = ls !! SettingsModal.settings_key) as Hsettings.
  { unfold exec. rewrite saveToHistory_run.
    destruct (Home.newItem now digestData); [| done].
    cbn [snd localStorage]. by rewrite lookup_insert_ne. }
  split; [done |]. split; [| split; [done |]].
  - rewrite !loadHistory_exec. cbn [localStorage component].
    unfold HistoryStore.stored_history. rewrite Hhistory.
    by repeat case_match.
  - rewrite !loadSettings_exec. cbn [localStorage component].
    unfold SettingsModal.stored_settings. rewrite Hsettings.
    by repeat case_match.
Qed.

End Stores.

(** ** More on the settings modal *)
Section SettingsMore.
Import JS SettingsModal.
Context `{Platform}.

Lemma or_else_idem (a b : value) : or_else a (or_else a b) = or_else a b.
Proof. unfold or_else. by destruct (truthy a) eqn:Ha; rewrite ?Ha. Qed.

(** X17: opening the modal again changes nothing: the load effect run a
    second time on an unchanged store leaves the state the first run gave;
    and with [isOpen] false it does nothing at all. *)
Theorem loadSettings_idempotent (w : world state) :
  exec (loadSettings true) (exec (loadSettings true) w) = exec (loadSettings true) w /\
  exec (loadSettings false) w = w.
Proof.
  split; [| done].
  rewrite (loadSettings_exec w).
  destruct (stored_settings (localStorage w)) as [parsed |] eqn:Hstored.
  - cbv zeta. rewrite loadSettings_exec. cbn [localStorage component].
    rewrite Hstored. cbv zeta. cbn [slackChannel deliveryTime timezone categories statusMessage].
    by rewrite or_else_idem.
  - rewrite loadSettings_exec. by rewrite Hstored.
Qed.

(** X18: what a save followed by a load gives for any settings record of
    the declared types: the record itself, except that an empty delivery
    time comes back as "10:00" and an empty time zone as "America/New_York".
    The browser facts used: [JSON.parse] reads back what [JSON.stringify]
    wrote, and the empty text is not JSON. *)
Theorem save_then_load_defaults_empty (s : Settings) (w : world state) (st : state) :
  settings (component w) = encode s ->
  JSON_parse (JSON_stringify (encode s)) = Some (encode s) ->
  JSON_parse "" = None ->
  settings (component (exec (loadSettings true)
                         (World st (localStorage (exec handleSave w)))))
  = encode (SettingsForm.reloaded s).
Proof.
  intros Hs Hround Hempty. destruct w as [st0 ls]. cbn [component] in Hs.
  assert (localStorage (exec handleSave (World st0 ls))
          = <[settings_key := JSON_stringify (encode s)]> ls) as ->.
  { unfold exec, handleSave, mbind, M_bind, gets, setItem, setStatusMessage, update, modify.
    cbn [snd component localStorage]. by rewrite Hs. }
  rewrite loadSettings_exec. cbn [localStorage component].
  unfold stored_settings. rewrite lookup_insert_eq.
  destruct (String.eqb_spec (JSON_stringify (encode s)) "") as [Heq | _].
  { rewrite Heq in Hround. congruence. }
  rewrite Hround. clear Hs Hround.
  destruct s as [channel time zone cats]. unfold SettingsForm.reloaded.
  cbn [s_slackChannel s_deliveryTime s_timezone s_categories].
  by destruct channel, time, zone.
Qed.

End SettingsMore.

(** ** More on the digest history *)
Section HistoryMore.
Import JS Home.
Context `{Platform}.

Lemma saveAll_history_exact (calls : list (readings * value)) (last : readings * value)
    (w w' : world state) :
  saveAll (calls ++ [last]) w = (Normal tt, w') ->
  exists items,
    created (calls ++ [last]) items /\
    history (component w') = take 20 (rev items ++ history (component w)).
Proof.
  intros Hrun. apply saveAll_snoc in Hrun as (w1 & Hrun & Hlast).
  destruct (saveAll_history _ _ _ Hrun) as (items & Hitems & Hhist).
  apply saveToHistory_normal in Hlast as (item & Hitem & -> & _).
  exists (items ++ [item])%list. split.
  - apply Forall2_app; [done |]. by constructor.
  - rewrite rev_app_distr. cbn [rev app].
    by rewrite <- take_cons_take, Hhist, take_cons_take.
Qed.

Lemma created_ids (calls : list (readings * value)) (items : list value) :
  created calls items ->
  HistoryStore.ids items
  = List.map (fun t => VStr (pretty t)) (List.map (fun c => id_now c.1) calls).
Proof.
  induction 1 as [| [now d] item calls items Hitem _ IH]; [done |].
  cbn [HistoryStore.ids List.map fst]. fold (HistoryStore.ids items). rewrite IH. f_equal.
  cbn [fst snd] in Hitem. unfold newItem, get in Hitem.
  destruct (nullish d); [done |]. by injection Hitem as <-.
Qed.

(** X19: unique ids under a clock that does not repeat.  Starting from an
    empty history, when the clock readings taken for the ids of a sequence
    of successful saves are pairwise distinct, the ids of the entries in the
    history are pairwise distinct. *)
Theorem ids_distinct_when_clock_distinct (calls : list (readings * value))
    (w w' : world state) :
  history (component w) = [] ->
  NoDup (List.map (fun c => id_now c.1) calls) ->
  saveAll calls w = (Normal tt, w') ->
  NoDup (HistoryStore.ids (history (component w'))).
Proof.
  intros Hempty Hclock Hrun.
  destruct calls as [| first rest] using rev_ind.
  - injection Hrun as <-. rewrite Hempty. constructor.
  - clear IHrest.
    apply saveAll_history_exact in Hrun as (items & Hitems & ->).
    rewrite Hempty, app_nil_r. unfold HistoryStore.ids.
    rewrite <- firstn_map. eapply sublist_NoDup; [| apply sublist_take].
    rewrite map_rev. apply NoDup_ListNoDup, NoDup_rev.
    fold (HistoryStore.ids items). rewrite (created_ids _ _ Hitems).
    apply Finite.Injective_map_NoDup; [| by apply NoDup_ListNoDup].
    intros t1 t2 [= Heq]. by apply (inj pretty).
Qed.

(** The final state of an accepted fetch. *)
Lemma fetchNews_accepted_exec (now : readings) (result : value) (w : world state) :
  accepted (Normal result) = true ->
  exists item,
    newItem now (payload result) = Normal item /\
    exec (fetchNews now (Normal result)) w
    = World (State false "✓ News digest fetched successfully" (payload result)
               (take 20 (item :: history (component w))))
            (<[history_key := JSON_stringify (VArr (take 20 (item :: history (component w))))]>
               (localStorage w)).
Proof.
  unfold accepted. intros [Hsuccess Harr]%andb_true_iff. unfold payload in *.
  assert (nullish result = false) as Hnull by (by destruct result).
  assert (nullish (field result "response") = false) as Hresp.
  { destruct (field result "response"); try done. }
  assert (truthy (field (field result "response") "result") = true) as Hpay.
  { by destruct (field (field result "response") "result"). }
  assert (nullish (field (field result "response") "result") = false) as Hpaynull.
  { by destruct (field (field result "response") "result"). }
  destruct w as [st ls].
  unfold fetchNews, exec, fetchNews_body, page_callees,
    try_finally, try_catch, mbind, M_bind, lift, mret, M_ret, get_opt, get.
  cbn [call_setLoading call_setStatusMessage call_setDigest call_saveToHistory].
  fetch_step.
  unfold setLoading, setStatusMessage, setDigest, update, modify.
  cbn beta iota zeta delta [fst snd component localStorage loading statusMessage digest history].
  rewrite saveToHistory_run. unfold newItem, get. rewrite Hpaynull.
  cbn beta iota zeta delta [fst snd component localStorage loading statusMessage digest history
                            mbind mret completion_bind completion_ret].
  eexists. split; reflexivity.
Qed.

(** X20: after an accepted fetch, the digest shown is the [data] of the
    first history entry, whose [date] is the digest's own [digest_date] when
    it has one and the locale date of the moment otherwise, and whose
    [timestamp] is the clock reading. *)
Theorem fetched_digest_heads_history (now : readings) (result : value) (w : world state) :
  accepted (Normal result) = true ->
  let w' := exec (fetchNews now (Normal result)) w in
  exists item rest,
    history (component w') = item :: rest /\
    field item "data" = digest (component w') /\
    digest (component w') = payload result /\
    field item "date"
    = or_else (field (payload result) "digest_date")
              (VStr (toLocaleDateString (date_now now))) /\
    field item "timestamp" = VNum (Int (timestamp_now now)).
Proof.
  intros Haccepted. cbv zeta.
  destruct (fetchNews_accepted_exec now result w Haccepted) as (item & Hitem & ->).
  cbn [component history digest]. exists item, (take 19 (history (component w))).
  split; [done |].
  unfold newItem, get in Hitem.
  destruct (nullish (payload result)); [done |]. by injection Hitem as <-.
Qed.

(** X9: an entry that [saveToHistory] creates is laid out as the history
    list reads it: for a digest whose [categories] is an array without null
    elements, the list shows of the entry exactly the selected categories of
    the digest, and reading them does not throw. *)
Theorem created_entry_is_filterable (view : HistoryView.state) (now : readings)
    (digestData item : value) (categories : list value) :
  newItem now digestData = Normal item ->
  field digestData "categories" = VArr categories ->
  Forall (fun c => nullish c = false) categories ->
  HistoryView.filteredCategories view item
  = Normal (List.filter (HistoryView.selected view) categories).
Proof.
  intros Hitem Hcategories Hall.
  unfold newItem, get in Hitem.
  destruct (nullish digestData) eqn:Hnull; [done |]. injection Hitem as <-.
  unfold HistoryView.filteredCategories, get.
  cbn [nullish field assoc String.eqb Ascii.eqb Bool.eqb mbind completion_bind].
  rewrite Hnull, Hcategories. cbn [or_else truthy HistoryView.getFilteredCategories].
  by apply filter_categories_normal.
Qed.

End HistoryMore.

(** ** The category checkboxes *)
Section Checkboxes.
Import JS SettingsForm.
Variable code_units : string -> list string.

Lemma assoc_set_property (key other : string) (v : value) (fields : list (string * value)) :
  assoc other (set_property key v fields)
  = if String.eqb other key then v else assoc other fields.
Proof.
  induction fields as [| [k old] rest IH]; cbn [set_property assoc].
  - by destruct (String.eqb other key).
  - destruct (String.eqb_spec key k) as [-> | Hne]; cbn [assoc].
    + by destruct (String.eqb other k).
    + rewrite IH. destruct (String.eqb_spec other k) as [-> | Hne']; [| done].
      by rewrite (proj2 (String.eqb_neq k key)).
Qed.

Lemma set_property_twice (key : string) (v1 v2 : value) (fields : list (string * value)) :
  set_property key v2 (set_property key v1 fields) = set_property key v2 fields.
Proof.
  induction fields as [| [k old] rest IH]; cbn [set_property].
  - by rewrite String.eqb_refl.
  - destruct (String.eqb key k) eqn:Hk; cbn [set_property]; rewrite Hk; [done |].
    by rewrite IH.
Qed.

(** X21: a checkbox sets its own key and nothing else.  After the change
    of [key], the categories read [checked] at [key], whatever the cell held
    before; when the cell held an object, every other property reads as
    before: a property missing from a stored object stays missing. *)
Theorem onChange_sets_its_key_only (key other : string) (checked : bool)
    (prev : value) (fields : list (string * value)) :
  field (onChange code_units key checked prev) key = VBool checked /\
  field (onChange code_units key checked (VObj fields)) other
  = (if String.eqb other key then VBool checked else field (VObj fields) other).
Proof.
  unfold onChange. cbn [field own_properties]. rewrite !assoc_set_property.
  by rewrite String.eqb_refl.
Qed.

(** X22: the last change of a checkbox wins: changing the same key twice
    gives what the second change alone gives. *)
Theorem onChange_last_wins (key : string) (first second : bool) (prev : value) :
  onChange code_units key second (onChange code_units key first prev)
  = onChange code_units key second prev.
Proof.
  unfold onChange. cbn [own_properties]. by rewrite set_property_twice.
Qed.

(** X23: reopening the modal after a checkbox was changed and not saved.
    The load effect sets the categories from the store when the store holds
    truthy [categories], which discards the change; when the store holds
    nothing, or no [categories], the changed categories stay.  The change
    itself writes nothing to the store. *)
Theorem reopen_after_unsaved_change `{Platform} (key : string) (checked : bool)
    (w : world SettingsModal.state) :
  let changed := exec (changeCategory code_units key checked) w in
  let reopened := exec (SettingsModal.loadSettings true) changed in
  localStorage changed = localStorage w /\
  SettingsModal.categories (component changed)
  = onChange code_units key checked (SettingsModal.categories (component w)) /\
  SettingsModal.categories (component reopened)
  = match SettingsModal.stored_settings (localStorage w) with
    | Some parsed =>
        or_else (field parsed "categories") (SettingsModal.categories (component changed))
    | None => SettingsModal.categories (component changed)
    end.
Proof.
  cbv zeta. destruct w as [st ls]. split; [done |]. split; [done |].
  rewrite loadSettings_exec. cbn [localStorage component exec snd changeCategory].
  unfold exec, changeCategory, update, modify. cbn [snd localStorage component].
  by destruct (SettingsModal.stored_settings ls).
Qed.

End Checkboxes.

(** ** Instances *)

Lemma getFilteredCategories_keeps_selected_witness :
  HistoryView.getFilteredCategories HistoryView.initial (JS.VArr Sample2.categories)
  = JS.Normal [Sample2.category "Breaking"; Sample2.category "Research"].
Proof.
  apply (getFilteredCategories_keeps_selected HistoryView.initial Sample2.categories JS.VNull).
  repeat constructor.
Defined.

Lemma getFilteredCategories_throws_on_null_witness :
  HistoryView.getFilteredCategories HistoryView.initial
    (JS.VArr [Sample2.category "Breaking"; JS.VNull; Sample2.category "Research"])
  = JS.Abrupt (JS.TypeError JS.VNull "category_name").
Proof.
  apply (getFilteredCategories_throws_on_null HistoryView.initial
           [Sample2.category "Breaking"] [Sample2.category "Research"] JS.VNull).
  - repeat constructor.
  - reflexivity.
Defined.

Lemma toggleCategoryFilter_flips_one_name_witness :
  HistoryView.getFilteredCategories
    (HistoryView.toggleCategoryFilter "Breaking" HistoryView.initial)
    (JS.VArr Sample2.categories)
  = JS.Normal [Sample2.category "Research"].
Proof.
  apply (toggleCategoryFilter_flips_one_name "Breaking" HistoryView.initial Sample2.categories).
  repeat constructor.
Defined.

Lemma getFilteredCategories_idempotent_witness :
  HistoryView.getFilteredCategories HistoryView.initial
    (JS.VArr [Sample2.category "Breaking"; Sample2.category "Research"])
  = JS.Normal [Sample2.category "Breaking"; Sample2.category "Research"].
Proof.
  apply (getFilteredCategories_idempotent HistoryView.initial (JS.VArr Sample2.categories)).
  vm_compute. reflexivity.
Defined.

Lemma created_entry_is_filterable_witness :
  HistoryView.filteredCategories HistoryView.initial
    (JS.VObj [("id", JS.VStr "1709632800000"); ("date", JS.VStr "2024-03-05");
              ("data", Sample2.digest); ("timestamp", JS.VNum (JS.Int 1709632800000))])
  = JS.Normal [Sample2.category "Breaking"; Sample2.category "Research"].
Proof.
  apply (created_entry_is_filterable (H := Sample.platform) HistoryView.initial
           (Sample.call 0).1 Sample2.digest _ Sample2.categories).
  - reflexivity.
  - reflexivity.
  - repeat constructor.
Defined.

Lemma loadScheduleStatus_answered_witness :
  ScheduleControl.schedule
    (JS.exec (ScheduleControl.loadScheduleStatus Sample2.pausing) ScheduleControl.initial)
  = Sample2.paused_schedule /\
  ScheduleControl.executionLogs
    (JS.exec (ScheduleControl.loadScheduleStatus Sample2.pausing) ScheduleControl.initial)
  = Sample2.executions.
Proof.
  destruct (loadScheduleStatus_answered Sample2.pausing _ _ ScheduleControl.initial
              (JS.exec (ScheduleControl.loadScheduleStatus Sample2.pausing)
                       ScheduleControl.initial)
              (ScheduleControl.loadScheduleStatus Sample2.pausing ScheduleControl.initial).1
              eq_refl eq_refl eq_refl eq_refl)
    as (_ & _ & Hschedule & Hlogs & _).
  split; [exact Hschedule | exact Hlogs].
Defined.

Lemma loadScheduleStatus_error_leaves_loading_witness :
  exists st',
    ScheduleControl.loadScheduleStatus Sample2.unreachable ScheduleControl.initial
    = (JS.Abrupt (JS.ErrorObject "Failed to fetch"), st') /\
    ScheduleControl.scheduleLoading st' = true /\
    ScheduleControl.executionLogs st' = [].
Proof.
  apply (loadScheduleStatus_error_leaves_loading Sample2.unreachable
           (JS.ErrorObject "Failed to fetch") ScheduleControl.initial).
  reflexivity.
Defined.

Lemma toggleSchedule_unconfirmed_witness :
  ScheduleControl.toggleSchedule Sample2.refusing Sample2.showing_active
  = (JS.Normal tt,
     ScheduleControl.State Sample2.active_schedule false []
       [ScheduleControl.PauseSchedule ScheduleControl.SCHEDULE_ID]).
Proof.
  apply (proj1 (proj2 (toggleSchedule_unconfirmed Sample2.refusing Sample2.showing_active))
           eq_refl
           (JS.VObj [("success", JS.VBool false); ("error", JS.VStr "Not allowed")]));
    reflexivity.
Defined.

Lemma toggleSchedule_confirmed_witness :
  ScheduleControl.toggleSchedule Sample2.pausing Sample2.showing_active
  = (JS.Normal tt,
     ScheduleControl.State Sample2.paused_schedule false Sample2.executions
       [ScheduleControl.PauseSchedule ScheduleControl.SCHEDULE_ID;
        ScheduleControl.GetSchedule ScheduleControl.SCHEDULE_ID;
        ScheduleControl.GetScheduleLogs ScheduleControl.SCHEDULE_ID 10]).
Proof.
  apply (toggleSchedule_confirmed Sample2.pausing (JS.VObj [("success", JS.VBool true)])
           (JS.VObj [("success", JS.VBool true); ("schedule", Sample2.paused_schedule)])
           (JS.VObj [("success", JS.VBool true); ("executions", JS.VArr Sample2.executions)])
           Sample2.showing_active);
    reflexivity.
Defined.

Lemma save_after_load_caps_witness :
  length (Home.history (JS.component
            (JS.exec (Home.loadHistory (H := Sample2.platform))
               (JS.World Home.initial
                  {[ Home.history_key := Sample2.long_history_text ]}))))
  = 25%nat /\
  length (Home.history (JS.component
            (JS.exec (Home.loadHistory (H := Sample2.platform) ;;
                      Home.saveToHistory (H := Sample2.platform)
                        (Sample.call 25).1 (Sample.call 25).2)
               (JS.World Home.initial
                  {[ Home.history_key := Sample2.long_history_text ]}))))
  = 20%nat.
Proof.
  destruct (save_after_load_caps (H := Sample2.platform)
              (Sample.call 25).1 (Sample.call 25).2 (Sample.entry 25) Sample2.long_history
              (JS.World Home.initial {[ Home.history_key := Sample2.long_history_text ]}))
    as (Hloaded & Hsaved & _).
  - vm_compute. reflexivity.
  - vm_compute. reflexivity.
  - split; [by rewrite Hloaded | by rewrite Hsaved].
Defined.

Lemma save_then_load_defaults_empty_witness :
  let w := JS.World (SettingsModal.State (JS.VStr "C01234567890") (JS.VStr "")
                       (JS.VStr "America/Chicago")
                       (SettingsModal.encode_categories
                          (SettingsModal.s_categories Sample.saved_settings)) "")
                    (∅ : gmap string string) in
  SettingsModal.settings
    (JS.component
       (JS.exec (SettingsModal.loadSettings (H := Sample.platform) true)
          (JS.World SettingsModal.initial
             (JS.localStorage (JS.exec (SettingsModal.handleSave (H := Sample.platform)) w)))))
  = SettingsModal.encode (SettingsForm.reloaded Sample.cleared_time).
Proof.
  cbv zeta.
  apply (save_then_load_defaults_empty (H := Sample.platform) Sample.cleared_time).
  - reflexivity.
  - vm_compute. reflexivity.
  - reflexivity.
Defined.

Lemma ids_distinct_when_clock_distinct_witness :
  NoDup (HistoryStore.ids (Home.history (JS.component
           (JS.exec (Home.saveAll (H := Sample.platform) (Sample.calls 3))
                    (JS.World Home.initial ∅))))).
Proof.
  apply (ids_distinct_when_clock_distinct (H := Sample.platform) (Sample.calls 3)
           (JS.World Home.initial ∅)).
  - reflexivity.
  - vm_compute. repeat (constructor; [set_unfold; intuition discriminate |]). constructor.
  - vm_compute. reflexivity.
Defined.

Lemma fetched_digest_heads_history_witness :
  exists item rest,
    Home.history (JS.component
      (JS.exec (Home.fetchNews (H := Sample.platform) (Sample.call 0).1
                  (JS.Normal Sample2.fetched))
               (JS.World Home.initial ∅)))
    = item :: rest /\
    JS.field item "data" = Sample2.digest.
Proof.
  destruct (fetched_digest_heads_history (H := Sample.platform) (Sample.call 0).1
              Sample2.fetched (JS.World Home.initial ∅) eq_refl)
    as (item & rest & Hhistory & Hdata & Hdigest & _).
  exists item, rest. split; [exact Hhistory |]. by rewrite Hdata, Hdigest.
Defined.
